(** * cvescan.options: validation and resolution of the command-line options

    A shallow embedding of [src/cvescan/options.py].  The module-level
    validators [raise_on_*] are functions into an error monad, the methods of
    the class [Options] are functions in a state-and-error monad over the
    attribute dictionary of [self], and the regular expression of
    [raise_on_invalid_cve] is a term of a small regex language with a
    derivative matcher. *)

From Stdlib Require Import String Ascii Bool Arith Lia.
From stdpp Require Import gmap strings.

Local Open Scope string_scope.

(** ** Python strings and values *)

(** Python [str] is modelled by [string]; a character outside ASCII stands
    for its UTF-8 bytes, none of which is a decimal digit, a newline or a
    character of the literals used below. *)

Definition dquote : string := String (ascii_of_nat 34) EmptyString.
Definition newline : ascii := ascii_of_nat 10.

(** The values the attributes of [self] hold. *)
Inductive value :=
| VNone
| VBool (b : bool)
| VStr (s : string).

(** An argument that is a string or [None]. *)
Definition of_optstr (o : option string) : value :=
  match o with
  | Some s => VStr s
  | None => VNone
  end.

(** Truth value of [if x:] for a string or [None]: [None] and the empty
    string are false. *)
Definition truthy (o : option string) : bool :=
  match o with
  | Some s => negb (String.eqb s "")
  | None => false
  end.

(** Truth value of [if v:] for a value. *)
Definition is_true (v : value) : bool :=
  match v with
  | VNone => false
  | VBool b => b
  | VStr s => negb (String.eqb s "")
  end.

(** What [%s] prints for a value. *)
Definition py_str (v : value) : string :=
  match v with
  | VNone => "None"
  | VBool true => "True"
  | VBool false => "False"
  | VStr s => s
  end.

(** ** Regular expressions, as far as [cve_regex] needs them *)

Module Re.

Inductive regex :=
| Empty
| Eps
| Chr (c : ascii)
| Range (lo hi : ascii)
| Seq (r1 r2 : regex)
| Alt (r1 r2 : regex)
| Star (r : regex).

(** A literal word. *)
Fixpoint lit (s : string) : regex :=
  match s with
  | EmptyString => Eps
  | String c s' => Seq (Chr c) (lit s')
  end.

(** [r{n}] *)
Fixpoint times (n : nat) (r : regex) : regex :=
  match n with
  | O => Eps
  | S n' => Seq r (times n' r)
  end.

(** [r{n,}] *)
Definition at_least (n : nat) (r : regex) : regex := Seq (times n r) (Star r).

Definition in_range (lo hi c : ascii) : bool :=
  Nat.leb (nat_of_ascii lo) (nat_of_ascii c)
  && Nat.leb (nat_of_ascii c) (nat_of_ascii hi).

(** [[0-9]] *)
Definition digit : regex := Range "0" "9".

Fixpoint nullable (r : regex) : bool :=
  match r with
  | Empty => false
  | Eps => true
  | Chr _ => false
  | Range _ _ => false
  | Seq r1 r2 => nullable r1 && nullable r2
  | Alt r1 r2 => nullable r1 || nullable r2
  | Star _ => true
  end.

Fixpoint deriv (c : ascii) (r : regex) : regex :=
  match r with
  | Empty => Empty
  | Eps => Empty
  | Chr c' => if Ascii.eqb c c' then Eps else Empty
  | Range lo hi => if in_range lo hi c then Eps else Empty
  | Seq r1 r2 =>
      if nullable r1
      then Alt (Seq (deriv c r1) r2) (deriv c r2)
      else Seq (deriv c r1) r2
  | Alt r1 r2 => Alt (deriv c r1) (deriv c r2)
  | Star r1 => Seq (deriv c r1) (Star r1)
  end.

(** The whole of [s] is a word of [r]. *)
Fixpoint fullmatch (r : regex) (s : string) : bool :=
  match s with
  | EmptyString => nullable r
  | String c s' => fullmatch (deriv c r) s'
  end.

(** What [$] accepts as the rest of the subject (no MULTILINE flag): the end
    of the string, or one newline that ends the string. *)
Definition dollar : regex := Alt Eps (Chr newline).

(** [re.match("^" body "$", s) is not None].  [re.match] tries position 0
    only, where [^] holds; the search backtracks over every prefix of [s] that
    is a word of [body], and [$] then asks the rest to be empty or one final
    newline: the whole of [s] is a word of [body] followed by [dollar]. *)
Definition match_anchored (body : regex) (s : string) : bool :=
  fullmatch (Seq body dollar) s.

(** The words of a regular expression. *)
Inductive lang : regex -> string -> Prop :=
| lang_eps : lang Eps ""
| lang_chr c : lang (Chr c) (String c "")
| lang_range lo hi c : in_range lo hi c = true -> lang (Range lo hi) (String c "")
| lang_seq r1 r2 s1 s2 : lang r1 s1 -> lang r2 s2 -> lang (Seq r1 r2) (s1 +:+ s2)
| lang_alt_l r1 r2 s : lang r1 s -> lang (Alt r1 r2) s
| lang_alt_r r1 r2 s : lang r2 s -> lang (Alt r1 r2) s
| lang_star_nil r : lang (Star r) ""
| lang_star_cons r s1 s2 : lang r s1 -> lang (Star r) s2 -> lang (Star r) (s1 +:+ s2).

End Re.

(** ** Exceptions and the two monads *)

(** [ArgumentError] is the class of [cvescan.errors]; [ValueError] is the
    built-in that [raise_on_invalid_cve] raises (the specification calls it
    ValidationError); [AttributeError] is what reading an attribute that was
    never assigned raises. *)
Inductive exn :=
| ArgumentError (msg : string)
| ValueError (msg : string)
| AttributeError (name : string).

(** A call that returns or raises. *)
Inductive res (A : Type) :=
| Ok (a : A)
| Raise (e : exn).
Arguments Ok {A} a.
Arguments Raise {A} e.

#[global] Instance res_ret : MRet res := fun A a => Ok a.
#[global] Instance res_bind : MBind res :=
  fun A B f m => match m with Ok a => f a | Raise e => Raise e end.

(** [if c: m] *)
Definition when (c : bool) (m : res unit) : res unit :=
  if c then m else Ok tt.

(** A method of an object: it reads and assigns the attributes of [self] and
    returns or raises; either way the attributes assigned so far remain. *)
Inductive outcome (A : Type) :=
| Returned (a : A) (self : gmap string value)
| Raised (e : exn) (self : gmap string value).
Arguments Returned {A} a self.
Arguments Raised {A} e self.

Definition method (A : Type) : Type := gmap string value -> outcome A.

#[global] Instance method_ret : MRet method := fun A a self => Returned a self.
#[global] Instance method_bind : MBind method :=
  fun A B f m self =>
    match m self with
    | Returned a self' => f a self'
    | Raised e self' => Raised e self'
    end.

(** [self.name = v] *)
Definition setattr (name : string) (v : value) : method unit :=
  fun self => Returned tt (<[name := v]> self).

(** [self.name] *)
Definition getattr (name : string) : method value :=
  fun self =>
    match self !! name with
    | Some v => Returned v self
    | None => Raised (AttributeError name) self
    end.

(** A call of a module-level function from a method. *)
Definition call {A : Type} (r : res A) : method A :=
  fun self =>
    match r with
    | Ok a => Returned a self
    | Raise e => Raised e self
    end.

(** ** The inputs *)

(** The parsed command line ([args]). *)
Record Args := {
  cve : option string;
  experimental : bool;
  file : option string;
  manifest : option string;
  nagios : bool;
  uct_links : bool;
  oval_file : option string;
  priority : option string;
  silent : bool;
  unresolved : bool;
  verbose : bool
}.

Record SysInfo := { distrib_codename : string }.

(** What the validators ask of the operating system: [os.getcwd()],
    [os.path.abspath] and [os.path.isfile]. *)
Record OS := {
  getcwd : string;
  abspath : string -> string;
  isfile : string -> bool
}.

(** ** The module-level constants *)

Definition FMT_CVE_OPTION : string := "-c|--cve".
Definition FMT_EXPERIMENTAL_OPTION : string := "-x|--experimental".
Definition FMT_FILE_OPTION : string := "-f|--file".
Definition FMT_MANIFEST_OPTION : string := "-m|--manifest".
Definition FMT_NAGIOS_OPTION : string := "-n|--nagios".
Definition FMT_UCT_LINKS_OPTION : string := "--uct-links".
Definition FMT_OVAL_FILE_OPTION : string := "-o|--oval_file".
Definition FMT_PRIORITY_OPTION : string := "-p|priority".
Definition FMT_SILENT_OPTION : string := "-s|--silent".
Definition FMT_UNRESOLVED_OPTION : string := "--unresolved".
Definition FMT_VERBOSE_OPTION : string := "-v|--verbose".

(** [MANIFEST_URL_TEMPLATE % (a, b)] *)
Definition MANIFEST_URL_TEMPLATE (a b : string) : string :=
  "https://cloud-images.ubuntu.com/" +:+ a +:+ "/current/" +:+ b
  +:+ "-server-cloudimg-amd64.manifest".

(** ** The validators *)

(** The body of [cve_regex], between [^] and [$]:
    [CVE-[0-9]{4}-[0-9]{4,}]. *)
Definition cve_regex : Re.regex :=
  Re.Seq (Re.lit "CVE-")
    (Re.Seq (Re.times 4 Re.digit)
       (Re.Seq (Re.Chr "-") (Re.at_least 4 Re.digit))).

Definition raise_on_invalid_cve (args : Args) : res unit :=
  match cve args with
  | Some c =>
      if negb (Re.match_anchored cve_regex c)
      then Raise (ValueError ("Invalid CVE ID (" +:+ c +:+ ")"))
      else Ok tt
  | None => Ok tt
  end.

Definition raise_incompatible_arguments_error (arg1 arg2 : string) : res unit :=
  Raise (ArgumentError
           ("The " +:+ arg1 +:+ " and " +:+ arg2
            +:+ " options are incompatible and may not be specified together.")).

Definition raise_on_invalid_manifest_options (args : Args) : res unit :=
  if truthy (file args) && negb (truthy (manifest args))
  then Raise (ArgumentError
                "Cannot specify -f|--file argument without -m|--manifest.")
  else Ok tt.

Definition raise_on_invalid_nagios_options (args : Args) : res unit :=
  if negb (nagios args) then Ok tt else
  when (truthy (cve args))
    (raise_incompatible_arguments_error FMT_NAGIOS_OPTION FMT_CVE_OPTION);;
  when (silent args)
    (raise_incompatible_arguments_error FMT_NAGIOS_OPTION FMT_SILENT_OPTION);;
  when (unresolved args)
    (raise_incompatible_arguments_error FMT_NAGIOS_OPTION FMT_UNRESOLVED_OPTION);;
  when (uct_links args)
    (raise_incompatible_arguments_error FMT_NAGIOS_OPTION FMT_UCT_LINKS_OPTION).

Definition raise_on_invalid_silent_options (args : Args) : res unit :=
  if negb (silent args) then Ok tt else
  when (negb (truthy (cve args)))
    (Raise (ArgumentError
              ("Cannot specify " +:+ FMT_SILENT_OPTION +:+ " argument without "
               +:+ FMT_CVE_OPTION +:+ ".")));;
  when (verbose args)
    (raise_incompatible_arguments_error FMT_SILENT_OPTION FMT_VERBOSE_OPTION);;
  when (uct_links args)
    (raise_incompatible_arguments_error FMT_SILENT_OPTION FMT_UCT_LINKS_OPTION).

Definition raise_on_invalid_unresolved_options (args : Args) : res unit :=
  when (unresolved args && truthy (cve args))
    (raise_incompatible_arguments_error FMT_UNRESOLVED_OPTION FMT_CVE_OPTION);;
  when (unresolved args && nagios args)
    (raise_incompatible_arguments_error FMT_UNRESOLVED_OPTION FMT_NAGIOS_OPTION).

Definition raise_on_invalid_combinations (args : Args) : res unit :=
  raise_on_invalid_manifest_options args;;
  raise_on_invalid_nagios_options args;;
  raise_on_invalid_silent_options args;;
  raise_on_invalid_unresolved_options args.

Section Validation.

Variable os : OS.

Definition raise_on_missing_file (file_path : option string) : res unit :=
  match file_path with
  | None => Ok tt
  | Some p =>
      if String.eqb p "" then Ok tt else
      let file_abs_path := abspath os p in
      if negb (isfile os file_abs_path)
      then Raise (ArgumentError
                    ("Cannot find file " +:+ dquote +:+ file_abs_path +:+ dquote
                     +:+ ". Current working directory is " +:+ dquote
                     +:+ getcwd os +:+ dquote +:+ "."))
      else Ok tt
  end.

Definition raise_on_missing_manifest_file (args : Args) : res unit :=
  raise_on_missing_file (file args).

Definition raise_on_missing_oval_file (args : Args) : res unit :=
  raise_on_missing_file (oval_file args).

Definition raise_on_invalid_args (args : Args) : res unit :=
  raise_on_invalid_cve args;;
  raise_on_invalid_combinations args;;
  raise_on_missing_manifest_file args;;
  raise_on_missing_oval_file args.

End Validation.

(** ** The class [Options] *)

Module Options.

Section Methods.

Variable os : OS.

(** [const.DEBUG_LOG], a constant of [cvescan.constants]. *)
Variable DEBUG_LOG : string.

Definition _set_mode (args : Args) : method unit :=
  setattr "manifest_mode" (VBool (if truthy (manifest args) then true else false));;
  setattr "experimental_mode" (VBool (experimental args));;
  setattr "nagios_mode" (VBool (nagios args)).

Definition _set_distrib_codename (args : Args) (sysinfo : SysInfo) : method unit :=
  manifest_mode ← getattr "manifest_mode";
  if is_true manifest_mode
  then setattr "distrib_codename" (of_optstr (manifest args))
  else setattr "distrib_codename" (VStr (distrib_codename sysinfo)).

Definition _set_oval_file_options (args : Args) (sysinfo : SysInfo) : method unit :=
  setattr "oval_base_url" VNone;;
  if truthy (oval_file args)
  then setattr "oval_file" (of_optstr (oval_file args))
  else
    setattr "oval_base_url"
      (VStr "https://people.canonical.com/~ubuntu-security/oval");;
    codename ← getattr "distrib_codename";
    setattr "oval_file" (VStr ("com.ubuntu." +:+ py_str codename +:+ ".cve.oval.xml"));;
    manifest_mode ← getattr "manifest_mode";
    (if is_true manifest_mode
     then f ← getattr "oval_file"; setattr "oval_file" (VStr ("oci." +:+ py_str f))
     else mret tt);;
    experimental_mode ← getattr "experimental_mode";
    (if is_true experimental_mode
     then
       u ← getattr "oval_base_url";
       setattr "oval_base_url" (VStr (py_str u +:+ "/alpha"));;
       f ← getattr "oval_file";
       setattr "oval_file" (VStr ("alpha." +:+ py_str f))
     else mret tt);;
    f ← getattr "oval_file";
    setattr "oval_zip" (VStr (py_str f +:+ ".bz2")).

Definition _set_manifest_file_options (args : Args) : method unit :=
  c1 ← getattr "distrib_codename";
  c2 ← getattr "distrib_codename";
  let manifest_url_tmp := MANIFEST_URL_TEMPLATE (py_str c1) (py_str c2) in
  setattr "manifest_file"
    (match file args with
     | Some f => if String.eqb f "" then VNone else VStr (abspath os f)
     | None => VNone
     end);;
  manifest_mode ← getattr "manifest_mode";
  setattr "manifest_url"
    (if is_true manifest_mode && negb (truthy (file args))
     then VStr manifest_url_tmp
     else VNone).

Definition _set_output_verbosity (args : Args) : method unit :=
  setattr "verbose_oscap_options" (VStr "");;
  if verbose args
  then setattr "verbose_oscap_options"
         (VStr ("--verbose WARNING --verbose-log-file " +:+ DEBUG_LOG))
  else mret tt.

Definition __init__ (args : Args) (sysinfo : SysInfo) : method unit :=
  call (raise_on_invalid_args os args);;
  _set_mode args;;
  _set_distrib_codename args sysinfo;;
  _set_oval_file_options args sysinfo;;
  _set_manifest_file_options args;;
  _set_output_verbosity args;;
  setattr "cve" (of_optstr (cve args));;
  setattr "priority" (of_optstr (priority args));;
  setattr "unresolved" (VBool (unresolved args));;
  setattr "uct_links" (VBool (uct_links args)).

(** [Options(args, sysinfo)]: [__init__] runs on an object with no attribute
    yet.  [Returned tt self] carries the attributes of the new object;
    [Raised e self] carries the exception and what had been assigned when it
    was raised. *)
Definition new (args : Args) (sysinfo : SysInfo) : outcome unit :=
  __init__ args sysinfo ∅.

End Methods.

(** The property [download_oval_file]: [self.oval_base_url is not None]. *)
Definition download_oval_file (self : gmap string value) : res bool :=
  match self !! "oval_base_url" with
  | Some VNone => Ok false
  | Some _ => Ok true
  | None => Raise (AttributeError "oval_base_url")
  end.

End Options.

(** ** The CVE identifier as the specification words it *)

Definition is_digit (c : ascii) : bool := Re.in_range "0" "9" c.

Fixpoint all_digits (s : string) : bool :=
  match s with
  | EmptyString => true
  | String c s' => is_digit c && all_digits s'
  end.

(** [s] without the prefix [p], when it starts with it. *)
Fixpoint strip_prefix (p s : string) : option string :=
  match p, s with
  | EmptyString, _ => Some s
  | String a p', String b s' => if Ascii.eqb a b then strip_prefix p' s' else None
  | String _ _, EmptyString => None
  end.

Fixpoint str_take (n : nat) (s : string) : string :=
  match n, s with
  | S n', String c s' => String c (str_take n' s')
  | _, _ => EmptyString
  end.

Fixpoint str_drop (n : nat) (s : string) : string :=
  match n, s with
  | S n', String _ s' => str_drop n' s'
  | _, _ => s
  end.

(** [CVE-YYYY-NNNN...]: the letters CVE, a dash, a year of four decimal
    digits, a dash, a sequence number of four or more decimal digits, and
    nothing else. *)
Definition spec_cve_format (s : string) : bool :=
  match strip_prefix "CVE-" s with
  | None => false
  | Some rest =>
      let year := str_take 4 rest in
      Nat.eqb (String.length year) 4 && all_digits year &&
      match strip_prefix "-" (str_drop 4 rest) with
      | None => false
      | Some number => Nat.leb 4 (String.length number) && all_digits number
      end
  end.

(** The same format as a decomposition of the string. *)
Definition cve_shape (s : string) : Prop :=
  exists year number,
    s = "CVE-" +:+ year +:+ "-" +:+ number
    /\ String.length year = 4 /\ all_digits year = true
    /\ 4 <= String.length number /\ all_digits number = true.

(** [needle] occurs in [hay]. *)
Definition mentions (hay needle : string) : Prop :=
  exists pre post, hay = pre +:+ needle +:+ post.

(** [s] ends with [suffix]. *)
Definition ends_with (s suffix : string) : Prop :=
  exists pre, s = pre +:+ suffix.

(** ** Sample inputs *)

(** The command line with no option given. *)
Definition no_args : Args :=
  {| cve := None; experimental := false; file := None; manifest := None;
     nagios := false; uct_links := false; oval_file := None;
     priority := Some "high"; silent := false; unresolved := false;
     verbose := false |}.

Definition bionic : SysInfo := {| distrib_codename := "bionic" |}.

(** A machine whose working directory is [/home/user] and whose only regular
    files are [/tmp/local.xml] and [/home/user/focal.manifest]; its [abspath]
    covers the paths without [.], [..] and doubled slashes. *)
Definition sample_os : OS :=
  {| getcwd := "/home/user";
     abspath p :=
       match strip_prefix "/" p with
       | Some _ => p
       | None => "/home/user/" +:+ p
       end;
     isfile p :=
       String.eqb p "/tmp/local.xml" || String.eqb p "/home/user/focal.manifest" |}.

Definition sample_log : string := "/tmp/cvescan.log".

(** Command lines that differ from another in one option. *)
Definition with_cve (c : option string) (a : Args) : Args :=
  {| cve := c; experimental := experimental a; file := file a;
     manifest := manifest a; nagios := nagios a; uct_links := uct_links a;
     oval_file := oval_file a; priority := priority a; silent := silent a;
     unresolved := unresolved a; verbose := verbose a |}.

Definition with_experimental (b : bool) (a : Args) : Args :=
  {| cve := cve a; experimental := b; file := file a;
     manifest := manifest a; nagios := nagios a; uct_links := uct_links a;
     oval_file := oval_file a; priority := priority a; silent := silent a;
     unresolved := unresolved a; verbose := verbose a |}.

Definition with_file (f : option string) (a : Args) : Args :=
  {| cve := cve a; experimental := experimental a; file := f;
     manifest := manifest a; nagios := nagios a; uct_links := uct_links a;
     oval_file := oval_file a; priority := priority a; silent := silent a;
     unresolved := unresolved a; verbose := verbose a |}.

Definition with_manifest (m : option string) (a : Args) : Args :=
  {| cve := cve a; experimental := experimental a; file := file a;
     manifest := m; nagios := nagios a; uct_links := uct_links a;
     oval_file := oval_file a; priority := priority a; silent := silent a;
     unresolved := unresolved a; verbose := verbose a |}.

Definition with_nagios (b : bool) (a : Args) : Args :=
  {| cve := cve a; experimental := experimental a; file := file a;
     manifest := manifest a; nagios := b; uct_links := uct_links a;
     oval_file := oval_file a; priority := priority a; silent := silent a;
     unresolved := unresolved a; verbose := verbose a |}.

Definition with_oval_file (f : option string) (a : Args) : Args :=
  {| cve := cve a; experimental := experimental a; file := file a;
     manifest := manifest a; nagios := nagios a; uct_links := uct_links a;
     oval_file := f; priority := priority a; silent := silent a;
     unresolved := unresolved a; verbose := verbose a |}.

Definition with_silent (b : bool) (a : Args) : Args :=
  {| cve := cve a; experimental := experimental a; file := file a;
     manifest := manifest a; nagios := nagios a; uct_links := uct_links a;
     oval_file := oval_file a; priority := priority a; silent := b;
     unresolved := unresolved a; verbose := verbose a |}.

(** [--manifest focal] and nothing else. *)
Definition focal_args : Args := with_manifest (Some "focal") no_args.

(** ** The accepted combinations in one condition *)

(** What [raise_on_invalid_combinations] asks of the options, read off its
    four checks: [file] needs [manifest]; [nagios] excludes [cve], [silent],
    [unresolved] and [uct_links]; [silent] needs [cve] and excludes [verbose]
    and [uct_links]; [unresolved] excludes [cve]. *)
Definition compatible (args : Args) : bool :=
  implb (truthy (file args)) (truthy (manifest args))
  && implb (nagios args)
       (negb (truthy (cve args)) && negb (silent args)
        && negb (unresolved args) && negb (uct_links args))
  && implb (silent args)
       (truthy (cve args) && negb (verbose args) && negb (uct_links args))
  && implb (unresolved args) (negb (truthy (cve args))).

(** The code name [_set_distrib_codename] assigns: the manifest's in manifest
    mode, the system's otherwise. *)
Definition codename_of (args : Args) (sysinfo : SysInfo) : string :=
  match manifest args with
  | Some m => if String.eqb m "" then distrib_codename sysinfo else m
  | None => distrib_codename sysinfo
  end.

(** The attributes [__init__] assigns on every path. *)
Definition always_assigned : list string :=
  [ "manifest_mode"; "experimental_mode"; "nagios_mode"; "distrib_codename";
    "oval_base_url"; "oval_file"; "manifest_file"; "manifest_url";
    "verbose_oscap_options"; "cve"; "priority"; "unresolved"; "uct_links" ].

(** ** Proof tools *)

(** [simpl] may unfold [append] on a string that starts with a character. *)
#[local] Arguments String.append !s1 s2 : simpl nomatch.

(** Splits the command line into its options and the string options into
    [None], the empty string and a string with a first character. *)
Ltac split_args args :=
  let c := fresh "c" in let x := fresh "x" in let f := fresh "f" in
  let m := fresh "m" in let n := fresh "n" in let u := fresh "u" in
  let o := fresh "o" in let p := fresh "p" in let s := fresh "s" in
  let r := fresh "r" in let v := fresh "v" in
  destruct args as [c x f m n u o p s r v];
  cbn [cve experimental file manifest nagios uct_links oval_file priority
       silent unresolved verbose] in *.

Ltac case_str o := destruct o as [[|? ?]|].

(** * Properties *)

(** ** The derivative matcher decides the language *)

Section RegexFacts.

Import Re.

Lemma append_nil_inv (s1 s2 : string) :
  s1 +:+ s2 = "" -> s1 = "" /\ s2 = "".
Proof. destruct s1; simpl; [tauto | discriminate]. Qed.

Lemma append_nil_r (s : string) : s +:+ "" = s.
Proof. induction s as [|c s IH]; simpl; [reflexivity | now rewrite IH]. Qed.

Lemma append_assoc (s1 s2 s3 : string) :
  (s1 +:+ s2) +:+ s3 = s1 +:+ (s2 +:+ s3).
Proof. induction s1 as [|c s1 IH]; simpl; [reflexivity | now rewrite IH]. Qed.

Lemma lang_nullable (r : regex) (s : string) :
  lang r s -> s = "" -> nullable r = true.
Proof.
  induction 1 as [ | | | r1 r2 s1 s2 _ IH1 _ IH2 | r1 r2 s _ IH | r1 r2 s _ IH
                 | | r s1 s2 _ _ _ _ ]; intros E; simpl; try discriminate; auto.
  - apply append_nil_inv in E as [E1 E2]. now rewrite IH1, IH2.
  - now rewrite IH.
  - rewrite IH by assumption. apply orb_true_r.
Qed.

Lemma nullable_lang (r : regex) : nullable r = true -> lang r "".
Proof.
  induction r as [ | | c | lo hi | r1 IH1 r2 IH2 | r1 IH1 r2 IH2 | r IH ];
    simpl; intros N; try discriminate.
  - constructor.
  - apply andb_true_iff in N as [N1 N2].
    change "" with ("" +:+ ""). constructor; auto.
  - apply orb_true_iff in N as [N|N]; [apply lang_alt_l | apply lang_alt_r]; auto.
  - constructor.
Qed.

Lemma lang_deriv (r : regex) (s : string) :
  lang r s -> forall c s', s = String c s' -> lang (deriv c r) s'.
Proof.
  induction 1 as [ | c0 | lo hi c0 Hr | r1 r2 s1 s2 H1 IH1 H2 IH2
                 | r1 r2 s H IH | r1 r2 s H IH
                 | | r s1 s2 H1 IH1 H2 IH2 ]; intros c s' E; simpl.
  - discriminate.
  - injection E as -> <-. rewrite Ascii.eqb_refl. constructor.
  - injection E as -> <-. rewrite Hr. constructor.
  - destruct s1 as [|a s1]; simpl in E.
    + rewrite (lang_nullable r1 "" H1 eq_refl).
      apply lang_alt_r. now apply IH2.
    + injection E as -> <-.
      assert (D : lang (Seq (deriv c r1) r2) (s1 +:+ s2))
        by (constructor; [now apply IH1 | assumption]).
      destruct (nullable r1); [now apply lang_alt_l | assumption].
  - apply lang_alt_l. now apply IH.
  - apply lang_alt_r. now apply IH.
  - discriminate.
  - destruct s1 as [|a s1]; simpl in E.
    + now apply IH2.
    + injection E as -> <-. constructor; [now apply IH1 | assumption].
Qed.

Lemma deriv_lang (c : ascii) (r : regex) :
  forall s, lang (deriv c r) s -> lang r (String c s).
Proof.
  induction r as [ | | c0 | lo hi | r1 IH1 r2 IH2 | r1 IH1 r2 IH2 | r IH ];
    simpl; intros s D.
  - inversion D.
  - inversion D.
  - destruct (Ascii.eqb_spec c c0) as [->|]; inversion D. constructor.
  - destruct (in_range lo hi c) eqn:Hr; inversion D. now constructor.
  - assert (L : forall t, lang (Seq (deriv c r1) r2) t -> lang (Seq r1 r2) (String c t)).
    { intros t Ht. inversion Ht as [ | | | ? ? t1 t2 Ht1 Ht2 | | | | ]; subst.
      change (String c (t1 +:+ t2)) with (String c t1 +:+ t2).
      constructor; auto. }
    destruct (nullable r1) eqn:N; [|now apply L].
    inversion D as [ | | | | ? ? ? Hl | ? ? ? Hr | | ]; subst; [now apply L|].
    change (String c s) with ("" +:+ String c s).
    constructor; [now apply nullable_lang | now apply IH2].
  - inversion D; subst; [apply lang_alt_l | apply lang_alt_r]; auto.
  - inversion D as [ | | | ? ? t1 t2 Ht1 Ht2 | | | | ]; subst.
    change (String c (t1 +:+ t2)) with (String c t1 +:+ t2).
    constructor; auto.
Qed.

Lemma fullmatch_lang (r : regex) (s : string) :
  fullmatch r s = true <-> lang r s.
Proof.
  revert r. induction s as [|c s IH]; intros r; simpl.
  - split; [apply nullable_lang | intros L; now apply (lang_nullable r "")].
  - rewrite IH. split; [apply deriv_lang | intros L; now apply (lang_deriv r (String c s))].
Qed.

End RegexFacts.

(** ** The words of [cve_regex] *)

Section CveRegexFacts.

Import Re.

Lemma all_digits_app (s1 s2 : string) :
  all_digits (s1 +:+ s2) = all_digits s1 && all_digits s2.
Proof.
  induction s1 as [|c s1 IH]; simpl; [reflexivity|].
  now rewrite IH, andb_assoc.
Qed.

Lemma length_app (s1 s2 : string) :
  String.length (s1 +:+ s2) = String.length s1 + String.length s2.
Proof. induction s1 as [|c s1 IH]; simpl; [reflexivity | now rewrite IH]. Qed.

Lemma lang_lit (p s : string) : lang (lit p) s <-> s = p.
Proof.
  revert s. induction p as [|c p IH]; intros s; simpl.
  - split; [inversion 1; reflexivity | intros ->; constructor].
  - split.
    + inversion 1 as [ | | | ? ? s1 s2 H1 H2 | | | | ]; subst.
      inversion H1; subst. apply IH in H2 as ->. reflexivity.
    + intros ->. change (String c p) with (String c "" +:+ p).
      constructor; [constructor | now apply IH].
Qed.

Lemma lang_digit (s : string) :
  lang digit s <-> exists c, s = String c "" /\ is_digit c = true.
Proof.
  split.
  - inversion 1; subst. eauto.
  - intros (c & -> & Hc). now constructor.
Qed.

Lemma lang_times_digit (n : nat) (s : string) :
  lang (times n digit) s <-> String.length s = n /\ all_digits s = true.
Proof.
  revert s. induction n as [|n IH]; intros s; simpl.
  - split.
    + inversion 1; auto.
    + intros [L _]. destruct s; [constructor | discriminate].
  - split.
    + inversion 1 as [ | | | ? ? s1 s2 H1 H2 | | | | ]; subst.
      apply lang_digit in H1 as (c & -> & Hc). apply IH in H2 as [L D].
      simpl. now rewrite L, Hc, D.
    + intros [L D]. destruct s as [|c s]; [discriminate|].
      simpl in L, D. apply andb_true_iff in D as [Hc D].
      change (String c s) with (String c "" +:+ s).
      constructor; [apply lang_digit; eauto | apply IH; auto].
Qed.

Lemma lang_star_digit (s : string) :
  lang (Star digit) s <-> all_digits s = true.
Proof.
  split.
  - intros H. remember (Star digit) as r eqn:E.
    induction H as [ | | | | | | | r s1 s2 H1 _ H2 IH2 ]; try discriminate.
    + reflexivity.
    + injection E as ->. apply lang_digit in H1 as (c & -> & Hc).
      simpl. now rewrite Hc, IH2.
  - induction s as [|c s IH]; simpl; intros D; [constructor|].
    apply andb_true_iff in D as [Hc D].
    change (String c s) with (String c "" +:+ s).
    constructor; [apply lang_digit; eauto | auto].
Qed.

Lemma lang_dollar (s : string) :
  lang dollar s <-> s = "" \/ s = String newline "".
Proof.
  unfold dollar. split.
  - inversion 1 as [ | | | | ? ? ? H1 | ? ? ? H1 | | ]; subst;
      inversion H1; subst; auto.
  - intros [-> | ->]; [apply lang_alt_l | apply lang_alt_r]; constructor.
Qed.

Lemma lang_cve_regex (s : string) : lang cve_regex s <-> cve_shape s.
Proof.
  unfold cve_regex, at_least, cve_shape. split.
  - inversion 1 as [ | | | ? ? p t1 Hp Ht1 | | | | ]; subst.
    apply (proj1 (lang_lit "CVE-" p)) in Hp as ->.
    inversion Ht1 as [ | | | ? ? y t2 Hy Ht2 | | | | ]; subst.
    apply (proj1 (lang_times_digit 4 y)) in Hy as [Ly Dy].
    inversion Ht2 as [ | | | ? ? d t3 Hd Ht3 | | | | ]; subst.
    inversion Hd; subst.
    inversion Ht3 as [ | | | ? ? n1 n2 Hn1 Hn2 | | | | ]; subst.
    apply (proj1 (lang_times_digit 4 n1)) in Hn1 as [Ln1 Dn1].
    apply lang_star_digit in Hn2.
    exists y, (n1 +:+ n2). repeat split; auto.
    + rewrite length_app. lia.
    + now rewrite all_digits_app, Dn1, Hn2.
  - intros (y & n & -> & Ly & Dy & Ln & Dn).
    constructor; [now apply lang_lit|].
    constructor; [now apply lang_times_digit|].
    change ("-" +:+ n) with (String "-" "" +:+ n).
    constructor; [constructor|].
    assert (Hn : n = str_take 4 n +:+ str_drop 4 n /\ String.length (str_take 4 n) = 4).
    { do 4 (destruct n as [|? n]; [simpl in Ln; lia|]). simpl. auto. }
    destruct Hn as [Hn Lt]. rewrite Hn in Dn |- *.
    rewrite all_digits_app in Dn. apply andb_true_iff in Dn as [D1 D2].
    constructor; [now apply lang_times_digit | now apply lang_star_digit].
Qed.

Lemma strip_prefix_Some (p s rest : string) :
  strip_prefix p s = Some rest <-> s = p +:+ rest.
Proof.
  revert s. induction p as [|a p IH]; intros s; simpl.
  - split; [now intros [= ->] | now intros ->].
  - destruct s as [|b s].
    + split; discriminate.
    + destruct (Ascii.eqb_spec a b) as [->|N].
      * rewrite IH. split; [now intros -> | now intros [= ->]].
      * split; [discriminate | intros [= -> _]; contradiction].
Qed.

Lemma str_take_drop (n : nat) (s : string) : s = str_take n s +:+ str_drop n s.
Proof.
  revert s. induction n as [|n IH]; intros [|c s]; simpl; auto.
  now rewrite <- IH.
Qed.

Lemma str_take_app (s t : string) : str_take (String.length s) (s +:+ t) = s.
Proof.
  induction s as [|c s IH]; simpl; [now destruct t | now rewrite IH].
Qed.

Lemma str_drop_app (s t : string) : str_drop (String.length s) (s +:+ t) = t.
Proof. induction s as [|c s IH]; simpl; auto. Qed.

Lemma spec_cve_format_shape (s : string) :
  spec_cve_format s = true <-> cve_shape s.
Proof.
  unfold spec_cve_format, cve_shape. split.
  - destruct (strip_prefix "CVE-" s) as [rest|] eqn:P; [|discriminate].
    apply strip_prefix_Some in P as ->.
    destruct (strip_prefix "-" (str_drop 4 rest)) as [n|] eqn:Q;
      [|rewrite andb_false_r; discriminate].
    apply strip_prefix_Some in Q.
    intros H. apply andb_true_iff in H as [H1 H2].
    apply andb_true_iff in H1 as [Ly Dy]. apply andb_true_iff in H2 as [Ln Dn].
    apply Nat.eqb_eq in Ly. apply Nat.leb_le in Ln.
    exists (str_take 4 rest), n. repeat split; auto.
    rewrite <- Q. now rewrite <- str_take_drop.
  - intros (y & n & -> & Ly & Dy & Ln & Dn).
    assert (P : strip_prefix "CVE-" ("CVE-" +:+ y +:+ "-" +:+ n)
                = Some (y +:+ "-" +:+ n)) by now apply strip_prefix_Some.
    assert (T : str_take 4 (y +:+ "-" +:+ n) = y)
      by (rewrite <- Ly; apply str_take_app).
    assert (R : str_drop 4 (y +:+ "-" +:+ n) = "-" +:+ n)
      by (rewrite <- Ly; apply str_drop_app).
    rewrite P. cbv zeta. rewrite T, R, Ly, Dy.
    change (strip_prefix "-" ("-" +:+ n)) with (Some n).
    cbv iota beta.
    rewrite (proj2 (Nat.leb_le _ _) Ln), Dn. reflexivity.
Qed.

(** The subjects [re.match] accepts for [^CVE-[0-9]{4}-[0-9]{4,}$]: the
    identifiers of the specified format, and those followed by one newline. *)
Lemma match_anchored_cve_regex (s : string) :
  match_anchored cve_regex s = true
  <-> spec_cve_format s = true
      \/ exists b, s = b +:+ String newline "" /\ spec_cve_format b = true.
Proof.
  unfold match_anchored. rewrite fullmatch_lang. split.
  - inversion 1 as [ | | | ? ? b t Hb Ht | | | | ]; subst.
    apply lang_cve_regex, spec_cve_format_shape in Hb.
    apply lang_dollar in Ht as [-> | ->].
    + left. now rewrite append_nil_r.
    + right. eauto.
  - intros [F | (b & -> & F)].
    + rewrite <- (append_nil_r s).
      constructor; [now apply lang_cve_regex, spec_cve_format_shape|].
      apply lang_dollar. auto.
    + constructor; [now apply lang_cve_regex, spec_cve_format_shape|].
      apply lang_dollar. auto.
Qed.

End CveRegexFacts.

(** ** Validation as a whole *)

Section ValidationFacts.

Variable os : OS.
Variable log : string.

(** The four checks of [raise_on_invalid_args] in their order: the first one
    that raises decides. *)
Lemma raise_on_invalid_args_order (args : Args) :
  raise_on_invalid_args os args =
    match raise_on_invalid_cve args with
    | Raise e => Raise e
    | Ok _ =>
        match raise_on_invalid_combinations args with
        | Raise e => Raise e
        | Ok _ =>
            match raise_on_missing_manifest_file os args with
            | Raise e => Raise e
            | Ok _ => raise_on_missing_oval_file os args
            end
        end
    end.
Proof. reflexivity. Qed.

Lemma raise_on_invalid_args_ok (args : Args) :
  raise_on_invalid_cve args = Ok tt ->
  raise_on_invalid_combinations args = Ok tt ->
  raise_on_missing_manifest_file os args = Ok tt ->
  raise_on_missing_oval_file os args = Ok tt ->
  raise_on_invalid_args os args = Ok tt.
Proof.
  intros H1 H2 H3 H4. rewrite raise_on_invalid_args_order.
  now rewrite H1, H2, H3, H4.
Qed.

Lemma raise_on_invalid_args_ok_inv (args : Args) :
  raise_on_invalid_args os args = Ok tt ->
  raise_on_invalid_cve args = Ok tt
  /\ raise_on_invalid_combinations args = Ok tt
  /\ raise_on_missing_manifest_file os args = Ok tt
  /\ raise_on_missing_oval_file os args = Ok tt.
Proof.
  rewrite raise_on_invalid_args_order.
  destruct (raise_on_invalid_cve args) as [[]|]; [|discriminate].
  destruct (raise_on_invalid_combinations args) as [[]|]; [|discriminate].
  destruct (raise_on_missing_manifest_file os args) as [[]|]; [|discriminate].
  destruct (raise_on_missing_oval_file os args) as [[]|]; [|discriminate].
  auto.
Qed.

(** A failed validation ends [__init__] before any attribute is assigned. *)
Lemma new_raises (args : Args) (sysinfo : SysInfo) (e : exn) :
  raise_on_invalid_args os args = Raise e ->
  Options.new os log args sysinfo = Raised e ∅.
Proof.
  intros V. unfold Options.new, Options.__init__.
  cbv [mbind method_bind call]. now rewrite V.
Qed.

(** After a validation that passed, the methods that derive the attributes
    read only attributes that are assigned: [__init__] returns. *)
Lemma new_returns (args : Args) (sysinfo : SysInfo) :
  raise_on_invalid_args os args = Ok tt ->
  exists self, Options.new os log args sysinfo = Returned tt self.
Proof.
  intros V. unfold Options.new, Options.__init__.
  cbv [mbind method_bind call]. rewrite V.
  clear V. destruct args as [c x f m n u o p s r v].
  destruct m as [[|? ?]|], o as [[|? ?]|], x, v; eexists; reflexivity.
Qed.

End ValidationFacts.

(** ** Resolution after a validation that passed *)

Section Resolution.

Variable os : OS.
Variable log : string.

(** Once the validation has passed, [__init__] is the chain of the methods
    that derive the attributes, run on an object with no attribute. *)
Lemma new_validated (args : Args) (sysinfo : SysInfo) :
  raise_on_invalid_args os args = Ok tt ->
  Options.new os log args sysinfo =
    (Options._set_mode args;;
     Options._set_distrib_codename args sysinfo;;
     Options._set_oval_file_options args sysinfo;;
     Options._set_manifest_file_options os args;;
     Options._set_output_verbosity log args;;
     setattr "cve" (of_optstr (cve args));;
     setattr "priority" (of_optstr (priority args));;
     setattr "unresolved" (VBool (unresolved args));;
     setattr "uct_links" (VBool (uct_links args))) ∅.
Proof.
  intros V. unfold Options.new, Options.__init__.
  unfold mbind at 1. unfold method_bind at 1. unfold call. now rewrite V.
Qed.

Lemma new_returned_validated (args : Args) (sysinfo : SysInfo) (self : gmap string value) :
  Options.new os log args sysinfo = Returned tt self ->
  raise_on_invalid_args os args = Ok tt.
Proof.
  destruct (raise_on_invalid_args os args) as [[]|e] eqn:V; [reflexivity|].
  rewrite (new_raises os log args sysinfo e V). discriminate.
Qed.

End Resolution.

(** ** Messages *)

Section Messages.

Lemma incompatible_message (arg1 arg2 : string) :
  exists msg,
    raise_incompatible_arguments_error arg1 arg2 = Raise (ArgumentError msg)
    /\ mentions msg arg1 /\ mentions msg arg2.
Proof.
  eexists. split; [reflexivity|]. split.
  - exists "The ". eexists. reflexivity.
  - exists ("The " +:+ arg1 +:+ " and "). eexists.
    now rewrite !append_assoc.
Qed.

Lemma missing_file_message (os : OS) (p : string) :
  p <> "" ->
  isfile os (abspath os p) = false ->
  exists msg,
    raise_on_missing_file os (Some p) = Raise (ArgumentError msg)
    /\ mentions msg (abspath os p) /\ mentions msg (getcwd os).
Proof.
  intros Hp Hf. unfold raise_on_missing_file.
  destruct p as [|a p]; [contradiction|].
  change (String.eqb (String a p) "") with false. cbv iota zeta.
  rewrite Hf. cbn [negb].
  eexists. split; [reflexivity|]. split.
  - exists ("Cannot find file " +:+ dquote). eexists. reflexivity.
  - exists ("Cannot find file " +:+ dquote +:+ abspath os (String a p) +:+ dquote
            +:+ ". Current working directory is " +:+ dquote).
    eexists. now rewrite !append_assoc.
Qed.

Lemma missing_file_ok (os : OS) (p : string) :
  isfile os (abspath os p) = true ->
  raise_on_missing_file os (Some p) = Ok tt.
Proof.
  intros Hf. unfold raise_on_missing_file.
  destruct (String.eqb p ""); [reflexivity|]. cbv zeta. now rewrite Hf.
Qed.

Lemma missing_file_falsy (os : OS) (o : option string) :
  truthy o = false -> raise_on_missing_file os o = Ok tt.
Proof.
  destruct o as [p|]; [|reflexivity]. unfold truthy, raise_on_missing_file.
  now destruct (String.eqb p "").
Qed.

End Messages.

(** ** The CVE identifier *)

Section CveCheck.

(** Every identifier of the specified format passes the check. *)
Lemma valid_cve_accepted (args : Args) (c : string) :
  cve args = Some c ->
  spec_cve_format c = true ->
  raise_on_invalid_cve args = Ok tt.
Proof.
  intros E F. unfold raise_on_invalid_cve. rewrite E.
  now rewrite (proj2 (match_anchored_cve_regex c) (or_introl F)).
Qed.

(** What the check raises and when: a [ValueError] that quotes the
    identifier, for a [cve] that is not [None] and is neither of the specified
    format nor of that format followed by one newline. *)
Lemma raise_on_invalid_cve_raises (args : Args) (e : exn) :
  raise_on_invalid_cve args = Raise e <->
  exists c,
    cve args = Some c
    /\ e = ValueError ("Invalid CVE ID (" +:+ c +:+ ")")
    /\ spec_cve_format c = false
    /\ forall b, c = b +:+ String newline "" -> spec_cve_format b = false.
Proof.
  unfold raise_on_invalid_cve. split.
  - destruct (cve args) as [c|]; [|discriminate].
    destruct (Re.match_anchored cve_regex c) eqn:M; [discriminate|].
    intros [= <-]. exists c. repeat split; auto.
    + destruct (spec_cve_format c) eqn:F; [|reflexivity].
      rewrite (proj2 (match_anchored_cve_regex c) (or_introl F)) in M.
      discriminate.
    + intros b ->. destruct (spec_cve_format b) eqn:F; [|reflexivity].
      rewrite (proj2 (match_anchored_cve_regex _)) in M; [discriminate|].
      right. eauto.
  - intros (c & -> & -> & F & N).
    destruct (Re.match_anchored cve_regex c) eqn:M; [|reflexivity].
    apply match_anchored_cve_regex in M as [M | (b & -> & M)].
    + congruence.
    + rewrite (N b eq_refl) in M. discriminate.
Qed.

(** Only the format check raises [ValueError]. *)
Lemma combinations_raise_argument_error (args : Args) (e : exn) :
  raise_on_invalid_combinations args = Raise e ->
  exists msg, e = ArgumentError msg.
Proof.
  unfold raise_on_invalid_combinations, raise_on_invalid_manifest_options,
    raise_on_invalid_nagios_options, raise_on_invalid_silent_options,
    raise_on_invalid_unresolved_options, raise_incompatible_arguments_error.
  destruct (truthy (file args)), (truthy (manifest args)), (nagios args),
    (truthy (cve args)), (silent args), (unresolved args), (uct_links args),
    (verbose args); cbn; intros [= <-]; eauto.
Qed.

Lemma missing_file_raises_argument_error (os : OS) (o : option string) (e : exn) :
  raise_on_missing_file os o = Raise e ->
  exists msg, e = ArgumentError msg.
Proof.
  unfold raise_on_missing_file. destruct o as [p|]; [|discriminate].
  destruct (String.eqb p ""); [discriminate|]. cbv zeta.
  destruct (isfile os (abspath os p)); cbn; [discriminate|].
  intros [= <-]. eauto.
Qed.

(** Resolution raises [ValueError] exactly when the format check does, that
    is when [cve] is not [None] and [re.match] finds no match. *)
Lemma new_value_error_iff
    (os : OS) (log : string) (args : Args) (sysinfo : SysInfo) :
  (exists msg self, Options.new os log args sysinfo = Raised (ValueError msg) self)
  <-> exists c, cve args = Some c /\ Re.match_anchored cve_regex c = false.
Proof.
  pose proof (raise_on_invalid_args_order os args) as O. split.
  - intros (msg & self & R). unfold raise_on_invalid_cve in O.
    destruct (cve args) as [c|] eqn:E.
    + destruct (Re.match_anchored cve_regex c) eqn:M; [|eauto]. exfalso.
      cbn [negb] in O.
      destruct (raise_on_invalid_combinations args) as [[]|e2] eqn:H2.
      2:{ rewrite (new_raises os log args sysinfo e2 O) in R.
          apply combinations_raise_argument_error in H2 as [m ->]. discriminate. }
      unfold raise_on_missing_manifest_file, raise_on_missing_oval_file in O.
      destruct (raise_on_missing_file os (file args)) as [[]|e3] eqn:H3.
      2:{ rewrite (new_raises os log args sysinfo e3 O) in R.
          apply missing_file_raises_argument_error in H3 as [m ->]. discriminate. }
      destruct (raise_on_missing_file os (oval_file args)) as [[]|e4] eqn:H4.
      2:{ rewrite (new_raises os log args sysinfo e4 O) in R.
          apply missing_file_raises_argument_error in H4 as [m ->]. discriminate. }
      destruct (new_returns os log args sysinfo O) as [self' R'].
      rewrite R' in R. discriminate.
    + exfalso.
      destruct (raise_on_invalid_combinations args) as [[]|e2] eqn:H2.
      2:{ rewrite (new_raises os log args sysinfo e2 O) in R.
          apply combinations_raise_argument_error in H2 as [m ->]. discriminate. }
      unfold raise_on_missing_manifest_file, raise_on_missing_oval_file in O.
      destruct (raise_on_missing_file os (file args)) as [[]|e3] eqn:H3.
      2:{ rewrite (new_raises os log args sysinfo e3 O) in R.
          apply missing_file_raises_argument_error in H3 as [m ->]. discriminate. }
      destruct (raise_on_missing_file os (oval_file args)) as [[]|e4] eqn:H4.
      2:{ rewrite (new_raises os log args sysinfo e4 O) in R.
          apply missing_file_raises_argument_error in H4 as [m ->]. discriminate. }
      destruct (new_returns os log args sysinfo O) as [self' R'].
      rewrite R' in R. discriminate.
  - intros (c & E & M). unfold raise_on_invalid_cve in O. rewrite E, M in O.
    cbn [negb] in O. do 2 eexists. apply new_raises. exact O.
Qed.

(** For an identifier of the specified format resolution raises no
    [ValueError]. *)
Lemma valid_cve_no_value_error
    (os : OS) (log : string) (args : Args) (sysinfo : SysInfo) (c : string) :
  cve args = Some c ->
  spec_cve_format c = true ->
  ~ exists msg self, Options.new os log args sysinfo = Raised (ValueError msg) self.
Proof.
  intros E F R. apply new_value_error_iff in R as (c' & E' & M).
  rewrite E in E'. injection E' as <-.
  rewrite (proj2 (match_anchored_cve_regex c) (or_introl F)) in M. discriminate.
Qed.

(** C1 (where the code departs from it).  [CVE-2020-1234] followed by a
    newline is not of the format [CVE-<4 digits>-<4 or more digits>], yet
    [raise_on_invalid_cve] accepts it, because [$] also matches before a final
    newline, and resolution returns an object whose [cve] is that string. *)
Theorem C1_trailing_newline_accepted (os : OS) (log : string) (sysinfo : SysInfo) :
  let c := "CVE-2020-1234" +:+ String newline "" in
  let args := with_cve (Some c) no_args in
  spec_cve_format c = false
  /\ raise_on_invalid_cve args = Ok tt
  /\ exists self,
       Options.new os log args sysinfo = Returned tt self
       /\ self !! "cve" = Some (VStr c).
Proof.
  cbv zeta. split; [reflexivity|]. split; [reflexivity|].
  eexists. split; reflexivity.
Qed.

(** C10.  An empty [cve] is a malformed identifier for the format check,
    which raises its error before anything else runs, whatever the other
    options are; each check of the combinations reads an empty [cve] as it
    reads an absent one. *)
Theorem C10_empty_cve (os : OS) (log : string) (args : Args) (sysinfo : SysInfo) :
  Options.new os log (with_cve (Some "") args) sysinfo
    = Raised (ValueError "Invalid CVE ID ()") ∅
  /\ raise_on_invalid_nagios_options (with_cve (Some "") args)
       = raise_on_invalid_nagios_options (with_cve None args)
  /\ raise_on_invalid_silent_options (with_cve (Some "") args)
       = raise_on_invalid_silent_options (with_cve None args)
  /\ raise_on_invalid_unresolved_options (with_cve (Some "") args)
       = raise_on_invalid_unresolved_options (with_cve None args)
  /\ raise_on_invalid_combinations (with_cve (Some "") args)
       = raise_on_invalid_combinations (with_cve None args).
Proof.
  split; [|repeat split; reflexivity].
  apply new_raises. rewrite raise_on_invalid_args_order. reflexivity.
Qed.

End CveCheck.

(** ** The order of the checks *)

Section Order.

(** C9.  Resolution runs the checks in the order CVE format, combinations,
    existence of [file], existence of [oval_file]; the first one that raises
    gives the exception of the whole, raised while the object has no attribute
    at all; when all four pass, [__init__] returns.  So an exception never
    leaves attributes behind. *)
Theorem C9_validation_first (os : OS) (log : string) (args : Args) (sysinfo : SysInfo) :
  match raise_on_invalid_cve args with
  | Raise e => Options.new os log args sysinfo = Raised e ∅
  | Ok _ =>
      match raise_on_invalid_combinations args with
      | Raise e => Options.new os log args sysinfo = Raised e ∅
      | Ok _ =>
          match raise_on_missing_manifest_file os args with
          | Raise e => Options.new os log args sysinfo = Raised e ∅
          | Ok _ =>
              match raise_on_missing_oval_file os args with
              | Raise e => Options.new os log args sysinfo = Raised e ∅
              | Ok _ =>
                  exists self,
                    Options.new os log args sysinfo = Returned tt self
                    /\ is_Some (self !! "oval_file")
              end
          end
      end
  end
  /\ match Options.new os log args sysinfo with
     | Raised _ self => self = ∅
     | Returned _ self => self <> ∅
     end.
Proof.
  pose proof (raise_on_invalid_args_order os args) as O.
  destruct (raise_on_invalid_cve args) as [[]|e1] eqn:H1.
  2:{ rewrite (new_raises os log args sysinfo e1 O). auto. }
  destruct (raise_on_invalid_combinations args) as [[]|e2] eqn:H2.
  2:{ rewrite (new_raises os log args sysinfo e2 O). auto. }
  destruct (raise_on_missing_manifest_file os args) as [[]|e3] eqn:H3.
  2:{ rewrite (new_raises os log args sysinfo e3 O). auto. }
  destruct (raise_on_missing_oval_file os args) as [[]|e4] eqn:H4.
  2:{ rewrite (new_raises os log args sysinfo e4 O). auto. }
  assert (R : exists self,
             Options.new os log args sysinfo = Returned tt self
             /\ is_Some (self !! "oval_file")).
  { rewrite (new_validated os log args sysinfo O).
    clear. split_args args.
    case_str m; case_str o; destruct x, v;
      (eexists; split; [reflexivity | eexists; reflexivity]). }
  split; [exact R|].
  destruct R as (self & -> & [w Hw]). intros ->.
  rewrite lookup_empty in Hw. discriminate.
Qed.

End Order.

(** ** The combinations of options *)

Section Combinations.

(** C4, where it fails as stated: [file] without [manifest] and a malformed
    [cve]; the format check comes first and raises [ValueError]. *)
Lemma C4_malformed_cve_first :
  let args := with_cve (Some "bogus") (with_file (Some "focal.manifest") no_args) in
  truthy (file args) = true
  /\ truthy (manifest args) = false
  /\ Options.new sample_os sample_log args bionic
       = Raised (ValueError "Invalid CVE ID (bogus)") ∅
  /\ ~ (exists msg self,
          Options.new sample_os sample_log args bionic
            = Raised (ArgumentError msg) self).
Proof.
  cbv zeta. repeat split; try reflexivity.
  intros (msg & self & E). vm_compute in E. discriminate E.
Qed.

(** C4 (amended).  When the CVE-format check passes, [file] without
    [manifest] makes resolution raise [ArgumentError], before any attribute is
    assigned. *)
Theorem C4_file_requires_manifest
    (os : OS) (log : string) (args : Args) (sysinfo : SysInfo) :
  truthy (file args) = true ->
  truthy (manifest args) = false ->
  raise_on_invalid_cve args = Ok tt ->
  Options.new os log args sysinfo
    = Raised (ArgumentError
                "Cannot specify -f|--file argument without -m|--manifest.") ∅.
Proof.
  intros F M V. apply new_raises.
  rewrite raise_on_invalid_args_order, V.
  unfold raise_on_invalid_combinations, raise_on_invalid_manifest_options.
  now rewrite F, M.
Qed.

Lemma C4_file_requires_manifest_witness :
  let args := with_file (Some "focal.manifest") no_args in
  truthy (file args) = true
  /\ truthy (manifest args) = false
  /\ raise_on_invalid_cve args = Ok tt
  /\ Options.new sample_os sample_log args bionic
       = Raised (ArgumentError
                   "Cannot specify -f|--file argument without -m|--manifest.") ∅.
Proof.
  cbv zeta. do 3 (split; [reflexivity|]).
  apply (C4_file_requires_manifest sample_os sample_log
           (with_file (Some "focal.manifest") no_args) bionic); reflexivity.
Defined.

(** C3, where it fails as stated: [nagios] together with a [cve] that is
    malformed; the format check comes first and raises [ValueError]. *)
Lemma C3_malformed_cve_first :
  let args := with_cve (Some "not-a-cve") (with_nagios true no_args) in
  nagios args = true
  /\ truthy (cve args) = true
  /\ Options.new sample_os sample_log args bionic
       = Raised (ValueError "Invalid CVE ID (not-a-cve)") ∅
  /\ ~ (exists msg self,
          Options.new sample_os sample_log args bionic
            = Raised (ArgumentError msg) self).
Proof.
  cbv zeta. repeat split; try reflexivity.
  intros (msg & self & E). vm_compute in E. discriminate E.
Qed.

(** The first option that [raise_on_invalid_nagios_options] finds set beside
    [nagios] is named in its message, with [nagios]. *)
Lemma nagios_options_message (args : Args) :
  nagios args = true ->
  truthy (cve args) || silent args || unresolved args || uct_links args = true ->
  exists msg,
    raise_on_invalid_nagios_options args = Raise (ArgumentError msg)
    /\ mentions msg FMT_NAGIOS_OPTION
    /\ (truthy (cve args) = true /\ mentions msg FMT_CVE_OPTION
        \/ silent args = true /\ mentions msg FMT_SILENT_OPTION
        \/ unresolved args = true /\ mentions msg FMT_UNRESOLVED_OPTION
        \/ uct_links args = true /\ mentions msg FMT_UCT_LINKS_OPTION).
Proof.
  intros N A. unfold raise_on_invalid_nagios_options. rewrite N. cbn [negb].
  destruct (truthy (cve args)) eqn:Hc.
  { destruct (incompatible_message FMT_NAGIOS_OPTION FMT_CVE_OPTION)
      as (msg & E & M1 & M2).
    exists msg. cbn [when]. rewrite E. split; [reflexivity | tauto]. }
  destruct (silent args) eqn:Hs.
  { destruct (incompatible_message FMT_NAGIOS_OPTION FMT_SILENT_OPTION)
      as (msg & E & M1 & M2).
    exists msg. cbn [when]. rewrite E. split; [reflexivity | tauto]. }
  destruct (unresolved args) eqn:Hu.
  { destruct (incompatible_message FMT_NAGIOS_OPTION FMT_UNRESOLVED_OPTION)
      as (msg & E & M1 & M2).
    exists msg. cbn [when]. rewrite E. split; [reflexivity | tauto]. }
  destruct (uct_links args) eqn:Hl; [|discriminate A].
  destruct (incompatible_message FMT_NAGIOS_OPTION FMT_UCT_LINKS_OPTION)
    as (msg & E & M1 & M2).
  exists msg. cbn [when]. rewrite E. split; [reflexivity | tauto].
Qed.

(** C3 (amended).  When the CVE-format check passes, [nagios] together
    with any of [cve], [silent], [unresolved] and [uct_links] makes resolution
    raise [ArgumentError], before any attribute is assigned; unless [file]
    comes without [manifest], whose check runs first, the message names
    [-n|--nagios] and an option that is set beside it. *)
Theorem C3_nagios_incompatible
    (os : OS) (log : string) (args : Args) (sysinfo : SysInfo) :
  nagios args = true ->
  truthy (cve args) || silent args || unresolved args || uct_links args = true ->
  raise_on_invalid_cve args = Ok tt ->
  exists msg,
    Options.new os log args sysinfo = Raised (ArgumentError msg) ∅
    /\ (raise_on_invalid_manifest_options args = Ok tt ->
        mentions msg FMT_NAGIOS_OPTION
        /\ (truthy (cve args) = true /\ mentions msg FMT_CVE_OPTION
            \/ silent args = true /\ mentions msg FMT_SILENT_OPTION
            \/ unresolved args = true /\ mentions msg FMT_UNRESOLVED_OPTION
            \/ uct_links args = true /\ mentions msg FMT_UCT_LINKS_OPTION)).
Proof.
  intros N A V.
  destruct (nagios_options_message args N A) as (msg & E & M).
  pose proof (raise_on_invalid_args_order os args) as O.
  rewrite V in O. unfold raise_on_invalid_combinations in O.
  unfold raise_on_invalid_manifest_options in *.
  destruct (truthy (file args) && negb (truthy (manifest args))).
  - eexists. split; [apply new_raises; exact O | discriminate].
  - cbn [mbind res_bind] in O. rewrite E in O.
    exists msg. split; [apply new_raises; exact O | intros _; exact M].
Qed.

Lemma C3_nagios_incompatible_witness :
  let args := with_silent true (with_nagios true no_args) in
  nagios args = true
  /\ truthy (cve args) || silent args || unresolved args || uct_links args = true
  /\ raise_on_invalid_cve args = Ok tt
  /\ exists msg,
       Options.new sample_os sample_log args bionic = Raised (ArgumentError msg) ∅
       /\ (raise_on_invalid_manifest_options args = Ok tt ->
           mentions msg FMT_NAGIOS_OPTION
           /\ (truthy (cve args) = true /\ mentions msg FMT_CVE_OPTION
               \/ silent args = true /\ mentions msg FMT_SILENT_OPTION
               \/ unresolved args = true /\ mentions msg FMT_UNRESOLVED_OPTION
               \/ uct_links args = true /\ mentions msg FMT_UCT_LINKS_OPTION)).
Proof.
  cbv zeta. do 3 (split; [reflexivity|]).
  apply (C3_nagios_incompatible sample_os sample_log
           (with_silent true (with_nagios true no_args)) bionic); reflexivity.
Defined.

End Combinations.

(** ** The files the options name *)

Section Files.

(** C5, where it fails as stated: a [file] that does not exist and a
    malformed [cve]; the format check comes first and raises [ValueError],
    which names neither the path nor the working directory. *)
Lemma C5_malformed_cve_first :
  let args :=
    with_cve (Some "CVE-20-1")
      (with_file (Some "missing.manifest") focal_args) in
  truthy (file args) = true
  /\ isfile sample_os (abspath sample_os "missing.manifest") = false
  /\ Options.new sample_os sample_log args bionic
       = Raised (ValueError "Invalid CVE ID (CVE-20-1)") ∅
  /\ ~ (exists msg self,
          Options.new sample_os sample_log args bionic
            = Raised (ArgumentError msg) self).
Proof.
  cbv zeta. repeat split; try reflexivity.
  intros (msg & self & E). vm_compute in E. discriminate E.
Qed.

(** C5 (amended).  When the CVE-format check and the checks of the
    combinations pass, a [file] whose absolute path is not a regular file
    makes resolution raise [ArgumentError] with a message that contains that
    absolute path and the working directory; when moreover the check of [file]
    passes, which runs first, the same holds of [oval_file]. *)
Theorem C5_missing_file
    (os : OS) (log : string) (args : Args) (sysinfo : SysInfo) :
  raise_on_invalid_cve args = Ok tt ->
  raise_on_invalid_combinations args = Ok tt ->
  (forall p,
      file args = Some p -> p <> "" ->
      isfile os (abspath os p) = false ->
      exists msg,
        Options.new os log args sysinfo = Raised (ArgumentError msg) ∅
        /\ mentions msg (abspath os p) /\ mentions msg (getcwd os))
  /\ (forall p,
         oval_file args = Some p -> p <> "" ->
         isfile os (abspath os p) = false ->
         raise_on_missing_manifest_file os args = Ok tt ->
         exists msg,
           Options.new os log args sysinfo = Raised (ArgumentError msg) ∅
           /\ mentions msg (abspath os p) /\ mentions msg (getcwd os)).
Proof.
  intros V C. pose proof (raise_on_invalid_args_order os args) as O.
  rewrite V, C in O. split.
  - intros p F Hp Hf.
    destruct (missing_file_message os p Hp Hf) as (msg & E & M).
    unfold raise_on_missing_manifest_file in O. rewrite F, E in O.
    exists msg. split; [now apply new_raises | exact M].
  - intros p F Hp Hf Hm.
    destruct (missing_file_message os p Hp Hf) as (msg & E & M).
    rewrite Hm in O. unfold raise_on_missing_oval_file in O. rewrite F, E in O.
    exists msg. split; [now apply new_raises | exact M].
Qed.

Lemma C5_missing_file_witness :
  let args := with_file (Some "missing.manifest") focal_args in
  raise_on_invalid_cve args = Ok tt
  /\ raise_on_invalid_combinations args = Ok tt
  /\ file args = Some "missing.manifest"
  /\ isfile sample_os (abspath sample_os "missing.manifest") = false
  /\ exists msg,
       Options.new sample_os sample_log args bionic = Raised (ArgumentError msg) ∅
       /\ mentions msg "/home/user/missing.manifest"
       /\ mentions msg "/home/user".
Proof.
  cbv zeta. do 4 (split; [reflexivity|]).
  apply (proj1 (C5_missing_file sample_os sample_log
                  (with_file (Some "missing.manifest") focal_args) bionic
                  eq_refl eq_refl) "missing.manifest");
    [reflexivity | discriminate | reflexivity].
Defined.

(** The same for an [oval_file] that does not exist, beside a [file] that
    does. *)
Example missing_oval_file_raises :
  let args :=
    with_oval_file (Some "/tmp/missing.xml")
      (with_file (Some "focal.manifest") focal_args) in
  exists msg,
    Options.new sample_os sample_log args bionic = Raised (ArgumentError msg) ∅
    /\ mentions msg "/tmp/missing.xml" /\ mentions msg "/home/user".
Proof.
  cbv zeta. eexists. split; [reflexivity|]. split.
  - exists ("Cannot find file " +:+ dquote). eexists. reflexivity.
  - exists ("Cannot find file " +:+ dquote +:+ "/tmp/missing.xml" +:+ dquote
            +:+ ". Current working directory is " +:+ dquote).
    eexists. reflexivity.
Qed.

End Files.

(** ** The attributes of the OVAL file *)

Section OvalFile.

Variable os : OS.
Variable log : string.

(** With an [oval_file] on the command line, [_set_oval_file_options] returns
    early: the file is taken as it is, no base URL is set and no [oval_zip] is
    assigned. *)
Lemma explicit_oval_file_attrs (args : Args) (sysinfo : SysInfo) (p : string) :
  raise_on_invalid_args os args = Ok tt ->
  oval_file args = Some p -> p <> "" ->
  exists self,
    Options.new os log args sysinfo = Returned tt self
    /\ self !! "oval_file" = Some (VStr p)
    /\ self !! "oval_base_url" = Some VNone
    /\ self !! "oval_zip" = None.
Proof.
  intros V E Hp. rewrite (new_validated os log args sysinfo V). clear V.
  split_args args. subst o. destruct p as [|a p]; [contradiction|].
  case_str m; destruct x, v; eexists; repeat split; reflexivity.
Qed.

(** Without one, the name is derived from the code name and [oval_zip] is
    that name followed by [.bz2]. *)
Lemma derived_oval_file_attrs (args : Args) (sysinfo : SysInfo) :
  raise_on_invalid_args os args = Ok tt ->
  truthy (oval_file args) = false ->
  exists self name url,
    Options.new os log args sysinfo = Returned tt self
    /\ self !! "oval_file" = Some (VStr name)
    /\ self !! "oval_base_url" = Some (VStr url)
    /\ self !! "oval_zip" = Some (VStr (name +:+ ".bz2")).
Proof.
  intros V E. rewrite (new_validated os log args sysinfo V). clear V.
  split_args args.
  case_str o; try discriminate E;
    case_str m; destruct x, v; do 3 eexists; repeat split; reflexivity.
Qed.

End OvalFile.

Section OvalFileClaims.

(** C2, where it fails as stated: with [--oval_file /tmp/local.xml], a file
    that exists, resolution returns an object that has no attribute
    [oval_zip]. *)
Lemma C2_explicit_oval_file_no_oval_zip :
  let args := with_oval_file (Some "/tmp/local.xml") no_args in
  exists self,
    Options.new sample_os sample_log args bionic = Returned tt self
    /\ self !! "oval_file" = Some (VStr "/tmp/local.xml")
    /\ self !! "oval_zip" = None
    /\ self !! "oval_zip" <> Some (VStr ("/tmp/local.xml" +:+ ".bz2")).
Proof.
  cbv zeta. eexists. repeat split; try reflexivity. discriminate.
Qed.

(** C2 (amended).  On every input on which resolution succeeds: when no
    [oval_file] was given, [oval_zip] is [oval_file] followed by [.bz2]; when
    one was given, [oval_file] is that value and [oval_zip] is not assigned. *)
Theorem C2_oval_zip
    (os : OS) (log : string) (args : Args) (sysinfo : SysInfo)
    (self : gmap string value) :
  Options.new os log args sysinfo = Returned tt self ->
  if truthy (oval_file args)
  then self !! "oval_file" = Some (of_optstr (oval_file args))
       /\ self !! "oval_zip" = None
  else exists name,
         self !! "oval_file" = Some (VStr name)
         /\ self !! "oval_zip" = Some (VStr (name +:+ ".bz2")).
Proof.
  intros R. pose proof (new_returned_validated os log args sysinfo self R) as V.
  destruct (truthy (oval_file args)) eqn:T.
  - destruct (oval_file args) as [p|] eqn:E; [|discriminate T].
    assert (Hp : p <> "") by (intros ->; discriminate T).
    destruct (explicit_oval_file_attrs os log args sysinfo p V E Hp)
      as (self' & R' & F & _ & Z).
    rewrite R' in R. injection R as <-. auto.
  - destruct (derived_oval_file_attrs os log args sysinfo V T)
      as (self' & name & url & R' & F & _ & Z).
    rewrite R' in R. injection R as <-. eauto.
Qed.

Lemma C2_oval_zip_witness :
  exists self,
    Options.new sample_os sample_log focal_args bionic = Returned tt self
    /\ self !! "oval_file" = Some (VStr "oci.com.ubuntu.focal.cve.oval.xml")
    /\ exists name,
         self !! "oval_file" = Some (VStr name)
         /\ self !! "oval_zip" = Some (VStr (name +:+ ".bz2")).
Proof.
  eexists. split; [reflexivity|]. split; [reflexivity|].
  apply (C2_oval_zip sample_os sample_log focal_args bionic). reflexivity.
Defined.

(** C8, where it fails as stated: [--oval_file /tmp/local.xml], a file that
    exists, with a malformed [cve]; the format check raises [ValueError] and
    no object is returned, so there is no [oval_file], [oval_base_url] or
    [download_oval_file] to speak of. *)
Lemma C8_malformed_cve_first :
  let args :=
    with_cve (Some "bogus") (with_oval_file (Some "/tmp/local.xml") no_args) in
  oval_file args = Some "/tmp/local.xml"
  /\ isfile sample_os (abspath sample_os "/tmp/local.xml") = true
  /\ Options.new sample_os sample_log args bionic
       = Raised (ValueError "Invalid CVE ID (bogus)") ∅
  /\ ~ (exists self,
          Options.new sample_os sample_log args bionic = Returned tt self).
Proof.
  cbv zeta. repeat split; try reflexivity.
  intros (self & E). vm_compute in E. discriminate E.
Qed.

(** C8 (amended).  With an [oval_file] on the command line that names a
    regular file: whenever resolution returns, [oval_file] is that value as it
    was given, [oval_base_url] is [None] and [download_oval_file] is false;
    and resolution does return when the CVE-format check, the checks of the
    combinations and the check of [file] pass. *)
Theorem C8_explicit_oval_file
    (os : OS) (log : string) (args : Args) (sysinfo : SysInfo) (p : string) :
  oval_file args = Some p -> p <> "" ->
  isfile os (abspath os p) = true ->
  (forall self,
      Options.new os log args sysinfo = Returned tt self ->
      self !! "oval_file" = Some (VStr p)
      /\ self !! "oval_base_url" = Some VNone
      /\ Options.download_oval_file self = Ok false)
  /\ (raise_on_invalid_cve args = Ok tt ->
      raise_on_invalid_combinations args = Ok tt ->
      raise_on_missing_manifest_file os args = Ok tt ->
      exists self, Options.new os log args sysinfo = Returned tt self).
Proof.
  intros E Hp Hf. split.
  - intros self R.
    pose proof (new_returned_validated os log args sysinfo self R) as V.
    destruct (explicit_oval_file_attrs os log args sysinfo p V E Hp)
      as (self' & R' & F & U & _).
    rewrite R' in R. injection R as <-.
    unfold Options.download_oval_file. rewrite U. auto.
  - intros V C M. apply new_returns.
    apply raise_on_invalid_args_ok; auto.
    unfold raise_on_missing_oval_file. rewrite E. now apply missing_file_ok.
Qed.

Lemma C8_explicit_oval_file_witness :
  let args := with_oval_file (Some "/tmp/local.xml") no_args in
  oval_file args = Some "/tmp/local.xml"
  /\ "/tmp/local.xml" <> ""
  /\ isfile sample_os (abspath sample_os "/tmp/local.xml") = true
  /\ raise_on_invalid_cve args = Ok tt
  /\ raise_on_invalid_combinations args = Ok tt
  /\ raise_on_missing_manifest_file sample_os args = Ok tt
  /\ (forall self,
         Options.new sample_os sample_log args bionic = Returned tt self ->
         self !! "oval_file" = Some (VStr "/tmp/local.xml")
         /\ self !! "oval_base_url" = Some VNone
         /\ Options.download_oval_file self = Ok false)
  /\ exists self, Options.new sample_os sample_log args bionic = Returned tt self.
Proof.
  cbv zeta. split; [reflexivity|]. split; [discriminate|].
  do 4 (split; [reflexivity|]).
  destruct (C8_explicit_oval_file sample_os sample_log
              (with_oval_file (Some "/tmp/local.xml") no_args) bionic
              "/tmp/local.xml" eq_refl ltac:(discriminate) eq_refl) as [A B].
  split; [exact A | apply B; reflexivity].
Defined.

End OvalFileClaims.

(** ** Manifest mode *)

Section Manifest.

(** Without [file] and [oval_file] there is no file to look for. *)
Lemma no_files_validated (os : OS) (args : Args) :
  truthy (file args) = false ->
  truthy (oval_file args) = false ->
  raise_on_invalid_cve args = Ok tt ->
  raise_on_invalid_combinations args = Ok tt ->
  raise_on_invalid_args os args = Ok tt.
Proof.
  intros F O V C. apply raise_on_invalid_args_ok; auto.
  - now apply missing_file_falsy.
  - now apply missing_file_falsy.
Qed.

(** What C6 asks of the attributes. *)
Lemma manifest_focal_attrs
    (os : OS) (log : string) (args : Args) (sysinfo : SysInfo) :
  manifest args = Some "focal" ->
  truthy (file args) = false ->
  truthy (oval_file args) = false ->
  raise_on_invalid_cve args = Ok tt ->
  raise_on_invalid_combinations args = Ok tt ->
  exists self,
    Options.new os log args sysinfo = Returned tt self
    /\ self !! "oval_file"
         = Some (VStr ((if experimental args then "alpha." else "")
                       +:+ "oci.com.ubuntu.focal.cve.oval.xml"))
    /\ self !! "oval_base_url"
         = Some (VStr ("https://people.canonical.com/~ubuntu-security/oval"
                       +:+ (if experimental args then "/alpha" else "")))
    /\ self !! "manifest_url"
         = Some (VStr "https://cloud-images.ubuntu.com/focal/current/focal-server-cloudimg-amd64.manifest").
Proof.
  intros M F O V C.
  rewrite (new_validated os log args sysinfo (no_files_validated os args F O V C)).
  clear V C. split_args args. subst m.
  case_str f; try discriminate F; case_str o; try discriminate O;
    destruct x, v; eexists; repeat split; reflexivity.
Qed.

(** C6.  On the command line [--manifest focal] (no [file], no
    [oval_file], no [experimental]) resolution returns, and the OVAL file, its
    base URL and the URL of the manifest are those of the focal cloud image;
    so it is on every command line with that [manifest], no [file], no
    [oval_file] and no [experimental] whose other options pass their checks. *)
Theorem C6_manifest_focal (os : OS) (log : string) (sysinfo : SysInfo) :
  (exists self,
     Options.new os log focal_args sysinfo = Returned tt self
     /\ self !! "oval_file" = Some (VStr "oci.com.ubuntu.focal.cve.oval.xml")
     /\ self !! "oval_base_url"
          = Some (VStr "https://people.canonical.com/~ubuntu-security/oval")
     /\ self !! "manifest_url"
          = Some (VStr "https://cloud-images.ubuntu.com/focal/current/focal-server-cloudimg-amd64.manifest"))
  /\ (forall args,
        manifest args = Some "focal" ->
        truthy (file args) = false ->
        truthy (oval_file args) = false ->
        experimental args = false ->
        raise_on_invalid_cve args = Ok tt ->
        raise_on_invalid_combinations args = Ok tt ->
        exists self,
          Options.new os log args sysinfo = Returned tt self
          /\ self !! "oval_file" = Some (VStr "oci.com.ubuntu.focal.cve.oval.xml")
          /\ self !! "oval_base_url"
               = Some (VStr "https://people.canonical.com/~ubuntu-security/oval")
          /\ self !! "manifest_url"
               = Some (VStr "https://cloud-images.ubuntu.com/focal/current/focal-server-cloudimg-amd64.manifest")).
Proof.
  assert (G : forall args,
             manifest args = Some "focal" ->
             truthy (file args) = false ->
             truthy (oval_file args) = false ->
             experimental args = false ->
             raise_on_invalid_cve args = Ok tt ->
             raise_on_invalid_combinations args = Ok tt ->
             exists self,
               Options.new os log args sysinfo = Returned tt self
               /\ self !! "oval_file" = Some (VStr "oci.com.ubuntu.focal.cve.oval.xml")
               /\ self !! "oval_base_url"
                    = Some (VStr "https://people.canonical.com/~ubuntu-security/oval")
               /\ self !! "manifest_url"
                    = Some (VStr "https://cloud-images.ubuntu.com/focal/current/focal-server-cloudimg-amd64.manifest")).
  { intros args M F O X V C.
    destruct (manifest_focal_attrs os log args sysinfo M F O V C)
      as (self & R & A1 & A2 & A3).
    rewrite X in A1, A2. exists self. auto. }
  split; [|exact G]. apply (G focal_args); reflexivity.
Qed.

(** C7.  The same with [experimental]: the OVAL file is the alpha one and
    the base URL, which is that of C6 followed by [/alpha], ends with
    [/alpha]. *)
Theorem C7_manifest_focal_experimental (os : OS) (log : string) (sysinfo : SysInfo) :
  (exists self url,
     Options.new os log (with_experimental true focal_args) sysinfo
       = Returned tt self
     /\ self !! "oval_file" = Some (VStr "alpha.oci.com.ubuntu.focal.cve.oval.xml")
     /\ self !! "oval_base_url" = Some (VStr url)
     /\ ends_with url "/alpha")
  /\ (forall args,
        manifest args = Some "focal" ->
        truthy (file args) = false ->
        truthy (oval_file args) = false ->
        experimental args = true ->
        raise_on_invalid_cve args = Ok tt ->
        raise_on_invalid_combinations args = Ok tt ->
        exists self url,
          Options.new os log args sysinfo = Returned tt self
          /\ self !! "oval_file" = Some (VStr "alpha.oci.com.ubuntu.focal.cve.oval.xml")
          /\ self !! "oval_base_url" = Some (VStr url)
          /\ ends_with url "/alpha"
          /\ url = "https://people.canonical.com/~ubuntu-security/oval/alpha").
Proof.
  assert (G : forall args,
             manifest args = Some "focal" ->
             truthy (file args) = false ->
             truthy (oval_file args) = false ->
             experimental args = true ->
             raise_on_invalid_cve args = Ok tt ->
             raise_on_invalid_combinations args = Ok tt ->
             exists self url,
               Options.new os log args sysinfo = Returned tt self
               /\ self !! "oval_file"
                    = Some (VStr "alpha.oci.com.ubuntu.focal.cve.oval.xml")
               /\ self !! "oval_base_url" = Some (VStr url)
               /\ ends_with url "/alpha"
               /\ url = "https://people.canonical.com/~ubuntu-security/oval/alpha").
  { intros args M F O X V C.
    destruct (manifest_focal_attrs os log args sysinfo M F O V C)
      as (self & R & A1 & A2 & A3).
    rewrite X in A1, A2.
    exists self, "https://people.canonical.com/~ubuntu-security/oval/alpha".
    repeat split; auto.
    exists "https://people.canonical.com/~ubuntu-security/oval". reflexivity. }
  split; [|exact G].
  destruct (G (with_experimental true focal_args)) as (self & url & R & A1 & A2 & E & _);
    try reflexivity.
  exists self, url. auto.
Qed.

End Manifest.

(** * Further properties of the resolved options *)

(** ** The attributes of a resolved object, in closed form *)

Section ResolvedAttributes.

Variable os : OS.
Variable log : string.

Lemma resolved_attrs (args : Args) (sysinfo : SysInfo) :
  raise_on_invalid_args os args = Ok tt ->
  exists self,
    Options.new os log args sysinfo = Returned tt self
    /\ self !! "manifest_mode" = Some (VBool (truthy (manifest args)))
    /\ self !! "experimental_mode" = Some (VBool (experimental args))
    /\ self !! "nagios_mode" = Some (VBool (nagios args))
    /\ self !! "distrib_codename" = Some (VStr (codename_of args sysinfo))
    /\ self !! "oval_base_url"
         = Some (if truthy (oval_file args) then VNone
                 else VStr ("https://people.canonical.com/~ubuntu-security/oval"
                            +:+ (if experimental args then "/alpha" else "")))
    /\ self !! "oval_file"
         = Some (if truthy (oval_file args) then of_optstr (oval_file args)
                 else VStr ((if experimental args then "alpha." else "")
                            +:+ (if truthy (manifest args) then "oci." else "")
                            +:+ "com.ubuntu." +:+ codename_of args sysinfo
                            +:+ ".cve.oval.xml"))
    /\ self !! "oval_zip"
         = (if truthy (oval_file args) then None
            else Some (VStr (((if experimental args then "alpha." else "")
                              +:+ (if truthy (manifest args) then "oci." else "")
                              +:+ "com.ubuntu." +:+ codename_of args sysinfo
                              +:+ ".cve.oval.xml") +:+ ".bz2")))
    /\ self !! "manifest_file"
         = Some (match file args with
                 | Some f => if String.eqb f "" then VNone else VStr (abspath os f)
                 | None => VNone
                 end)
    /\ self !! "manifest_url"
         = Some (if truthy (manifest args) && negb (truthy (file args))
                 then VStr (MANIFEST_URL_TEMPLATE (codename_of args sysinfo)
                              (codename_of args sysinfo))
                 else VNone)
    /\ self !! "verbose_oscap_options"
         = Some (VStr (if verbose args
                       then "--verbose WARNING --verbose-log-file " +:+ log
                       else ""))
    /\ self !! "cve" = Some (of_optstr (cve args))
    /\ self !! "priority" = Some (of_optstr (priority args))
    /\ self !! "unresolved" = Some (VBool (unresolved args))
    /\ self !! "uct_links" = Some (VBool (uct_links args)).
Proof.
  intros V.
  match goal with
  | |- exists self, ?X = Returned tt self /\ @?P self =>
      cut (match X with Returned _ self => P self | Raised _ _ => False end)
  end.
  { destruct (Options.new os log args sysinfo) as [[] self|e self];
      [eauto | contradiction]. }
  rewrite (new_validated os log args sysinfo V). clear V.
  split_args args.
  case_str m; case_str o; destruct x, v;
    (vm_compute; repeat split; reflexivity).
Qed.

(** What holds of the object of the closed form holds of the object that
    resolution returned. *)
Lemma returned_is (args : Args) (sysinfo : SysInfo) (self : gmap string value)
    (P : gmap string value -> Prop) :
  Options.new os log args sysinfo = Returned tt self ->
  (exists self', Options.new os log args sysinfo = Returned tt self' /\ P self') ->
  P self.
Proof. intros R (self' & R' & H). rewrite R' in R. now injection R as <-. Qed.

End ResolvedAttributes.

(** ** Which command lines are accepted *)

Section Accepted.

Lemma manifest_options_ok_iff (args : Args) :
  raise_on_invalid_manifest_options args = Ok tt
  <-> implb (truthy (file args)) (truthy (manifest args)) = true.
Proof.
  unfold raise_on_invalid_manifest_options.
  destruct (truthy (file args)), (truthy (manifest args)); cbn;
    split; intros H; try reflexivity; discriminate H.
Qed.

Lemma nagios_options_ok_iff (args : Args) :
  raise_on_invalid_nagios_options args = Ok tt
  <-> implb (nagios args)
        (negb (truthy (cve args)) && negb (silent args)
         && negb (unresolved args) && negb (uct_links args)) = true.
Proof.
  unfold raise_on_invalid_nagios_options, raise_incompatible_arguments_error.
  destruct (nagios args), (truthy (cve args)), (silent args),
    (unresolved args), (uct_links args); cbn;
    split; intros H; try reflexivity; discriminate H.
Qed.

Lemma silent_options_ok_iff (args : Args) :
  raise_on_invalid_silent_options args = Ok tt
  <-> implb (silent args)
        (truthy (cve args) && negb (verbose args) && negb (uct_links args))
      = true.
Proof.
  unfold raise_on_invalid_silent_options, raise_incompatible_arguments_error.
  destruct (silent args), (truthy (cve args)), (verbose args),
    (uct_links args); cbn;
    split; intros H; try reflexivity; discriminate H.
Qed.

Lemma unresolved_options_ok_iff (args : Args) :
  raise_on_invalid_unresolved_options args = Ok tt
  <-> implb (unresolved args) (negb (truthy (cve args))) = true
      /\ implb (unresolved args) (negb (nagios args)) = true.
Proof.
  unfold raise_on_invalid_unresolved_options, raise_incompatible_arguments_error.
  destruct (unresolved args), (truthy (cve args)), (nagios args); cbn;
    split; intros H; try (split; reflexivity); try reflexivity;
    try discriminate H; destruct H as [H1 H2]; discriminate.
Qed.

Lemma combinations_ok_iff (args : Args) :
  raise_on_invalid_combinations args = Ok tt <-> compatible args = true.
Proof.
  unfold raise_on_invalid_combinations, compatible.
  pose proof (manifest_options_ok_iff args) as M.
  pose proof (nagios_options_ok_iff args) as N.
  pose proof (silent_options_ok_iff args) as S.
  pose proof (unresolved_options_ok_iff args) as U.
  rewrite !andb_true_iff, <- M, <- N, <- S.
  destruct (raise_on_invalid_manifest_options args) as [[]|];
    [|split; [discriminate | intros [[[H _] _] _]; discriminate H]].
  destruct (raise_on_invalid_nagios_options args) as [[]|];
    [|split; [discriminate | intros [[[_ H] _] _]; discriminate H]].
  destruct (raise_on_invalid_silent_options args) as [[]|];
    [|split; [discriminate | intros [[_ H] _]; discriminate H]].
  cbn [mbind res_bind]. rewrite U. split; [tauto|].
  intros [[[_ HN] _] HU]. split; [exact HU|].
  apply N in HN. destruct (nagios args); [|now destruct (unresolved args)].
  destruct (unresolved args); [|reflexivity].
  destruct (truthy (cve args)), (silent args), (uct_links args);
    discriminate HN.
Qed.

(** The four checks of the combinations accept exactly the command lines
    that are [compatible]; every other one gets an [ArgumentError].  The test
    of [unresolved] with [nagios] is not part of the condition: the check of
    [nagios] has it already. *)
Theorem combinations_accepted_iff (args : Args) :
  (raise_on_invalid_combinations args = Ok tt <-> compatible args = true)
  /\ (compatible args = false <->
      exists msg, raise_on_invalid_combinations args = Raise (ArgumentError msg)).
Proof.
  pose proof (combinations_ok_iff args) as E. split; [exact E|].
  destruct (raise_on_invalid_combinations args) as [[]|e] eqn:C.
  - rewrite (proj1 E eq_refl). split; [discriminate | intros [m H]; discriminate H].
  - destruct (combinations_raise_argument_error args e C) as [m ->].
    split; [eauto|]. intros _. destruct (compatible args); [|reflexivity].
    discriminate (proj2 E eq_refl).
Qed.

Lemma missing_file_ok_iff (os : OS) (o : option string) :
  raise_on_missing_file os o = Ok tt
  <-> forall p, o = Some p -> p <> "" -> isfile os (abspath os p) = true.
Proof.
  unfold raise_on_missing_file. destruct o as [p|].
  - destruct p as [|a p].
    + split; [intros _ q [= <-] N; contradiction | reflexivity].
    + change (String.eqb (String a p) "") with false. cbv iota zeta.
      destruct (isfile os (abspath os (String a p))) eqn:F; cbn [negb].
      * split; [intros _ q [= <-] _; exact F | reflexivity].
      * split; [discriminate|]. intros H.
        specialize (H (String a p) eq_refl ltac:(discriminate)). congruence.
  - split; [intros _ q; discriminate | reflexivity].
Qed.

(** Resolution returns exactly when [cve] is absent or matched by the
    regular expression, the options are [compatible], and [file] and
    [oval_file], when given and not empty, name regular files. *)
Theorem resolution_returns_iff
    (os : OS) (log : string) (args : Args) (sysinfo : SysInfo) :
  (exists self, Options.new os log args sysinfo = Returned tt self)
  <-> match cve args with
      | Some c => Re.match_anchored cve_regex c = true
      | None => True
      end
      /\ compatible args = true
      /\ (forall p, file args = Some p -> p <> "" ->
                    isfile os (abspath os p) = true)
      /\ (forall p, oval_file args = Some p -> p <> "" ->
                    isfile os (abspath os p) = true).
Proof.
  rewrite <- combinations_ok_iff.
  rewrite <- (missing_file_ok_iff os (file args)).
  rewrite <- (missing_file_ok_iff os (oval_file args)).
  split.
  - intros [self R].
    apply new_returned_validated, raise_on_invalid_args_ok_inv in R
      as (V & C & F & O).
    repeat split; auto.
    unfold raise_on_invalid_cve in V. destruct (cve args) as [c|]; [|exact I].
    now destruct (Re.match_anchored cve_regex c).
  - intros (V & C & F & O). apply new_returns.
    apply raise_on_invalid_args_ok; auto.
    unfold raise_on_invalid_cve. destruct (cve args) as [c|]; [|reflexivity].
    now rewrite V.
Qed.

(** The format check accepts exactly the identifiers of the format
    [CVE-<4 digits>-<4 or more digits>] and those followed by one newline. *)
Theorem cve_check_accepts_exactly (args : Args) (c : string) :
  raise_on_invalid_cve (with_cve (Some c) args) = Ok tt
  <-> spec_cve_format c = true
      \/ exists b, c = b +:+ String newline "" /\ spec_cve_format b = true.
Proof.
  rewrite <- match_anchored_cve_regex.
  unfold raise_on_invalid_cve, with_cve. cbn [cve].
  destruct (Re.match_anchored cve_regex c); cbn [negb];
    split; intros H; try reflexivity; discriminate H.
Qed.

(** An identifier of the format passes the check, makes resolution raise no
    [ValueError], and is the [cve] of the object when resolution returns. *)
Theorem valid_cve_resolution
    (os : OS) (log : string) (args : Args) (sysinfo : SysInfo) (c : string) :
  cve args = Some c ->
  spec_cve_format c = true ->
  raise_on_invalid_cve args = Ok tt
  /\ (forall msg self,
         Options.new os log args sysinfo <> Raised (ValueError msg) self)
  /\ (forall self,
         Options.new os log args sysinfo = Returned tt self ->
         self !! "cve" = Some (VStr c)).
Proof.
  intros E F. split; [now apply (valid_cve_accepted args c)|]. split.
  - intros msg self R.
    apply (valid_cve_no_value_error os log args sysinfo c E F). eauto.
  - intros self R. apply (returned_is os log args sysinfo self); [exact R|].
    destruct (resolved_attrs os log args sysinfo
                (new_returned_validated os log args sysinfo self R))
      as (self' & R' & _ & _ & _ & _ & _ & _ & _ & _ & _ & _ & Acve & _).
    exists self'. split; [exact R'|]. now rewrite E in Acve.
Qed.

Lemma valid_cve_resolution_witness :
  let args := with_cve (Some "CVE-2020-1234") no_args in
  cve args = Some "CVE-2020-1234"
  /\ spec_cve_format "CVE-2020-1234" = true
  /\ raise_on_invalid_cve args = Ok tt
  /\ (forall msg self,
         Options.new sample_os sample_log args bionic <> Raised (ValueError msg) self)
  /\ (forall self,
         Options.new sample_os sample_log args bionic = Returned tt self ->
         self !! "cve" = Some (VStr "CVE-2020-1234")).
Proof.
  cbv zeta. do 2 (split; [reflexivity|]).
  apply (valid_cve_resolution sample_os sample_log
           (with_cve (Some "CVE-2020-1234") no_args) bionic "CVE-2020-1234");
    reflexivity.
Defined.

(** Every exception of resolution is the [ValueError] of the format check,
    which quotes [cve], or an [ArgumentError] raised after that check passed;
    reading an attribute never fails. *)
Theorem resolution_error_kinds
    (os : OS) (log : string) (args : Args) (sysinfo : SysInfo)
    (e : exn) (self : gmap string value) :
  Options.new os log args sysinfo = Raised e self ->
  (exists c, cve args = Some c /\ e = ValueError ("Invalid CVE ID (" +:+ c +:+ ")"))
  \/ (exists msg, e = ArgumentError msg /\ raise_on_invalid_cve args = Ok tt).
Proof.
  intros R. pose proof (raise_on_invalid_args_order os args) as O.
  destruct (raise_on_invalid_cve args) as [[]|e1] eqn:H1.
  - right.
    destruct (raise_on_invalid_combinations args) as [[]|e2] eqn:H2.
    2:{ rewrite (new_raises os log args sysinfo e2 O) in R. injection R as <- _.
        apply combinations_raise_argument_error in H2 as [m ->]. eauto. }
    unfold raise_on_missing_manifest_file, raise_on_missing_oval_file in O.
    destruct (raise_on_missing_file os (file args)) as [[]|e3] eqn:H3.
    2:{ rewrite (new_raises os log args sysinfo e3 O) in R. injection R as <- _.
        apply missing_file_raises_argument_error in H3 as [m ->]. eauto. }
    destruct (raise_on_missing_file os (oval_file args)) as [[]|e4] eqn:H4.
    2:{ rewrite (new_raises os log args sysinfo e4 O) in R. injection R as <- _.
        apply missing_file_raises_argument_error in H4 as [m ->]. eauto. }
    destruct (new_returns os log args sysinfo O) as [self' R'].
    rewrite R' in R. discriminate.
  - left. rewrite (new_raises os log args sysinfo e1 O) in R. injection R as <- _.
    apply raise_on_invalid_cve_raises in H1 as (c & E & -> & _). eauto.
Qed.

Lemma resolution_error_kinds_witness :
  let args := with_cve (Some "bogus") no_args in
  Options.new sample_os sample_log args bionic
    = Raised (ValueError "Invalid CVE ID (bogus)") ∅
  /\ ((exists c, cve args = Some c
                 /\ ValueError "Invalid CVE ID (bogus)"
                    = ValueError ("Invalid CVE ID (" +:+ c +:+ ")"))
      \/ (exists msg, ValueError "Invalid CVE ID (bogus)" = ArgumentError msg
                      /\ raise_on_invalid_cve args = Ok tt)).
Proof.
  cbv zeta. split; [reflexivity|].
  apply (resolution_error_kinds sample_os sample_log
           (with_cve (Some "bogus") no_args) bionic _ ∅). reflexivity.
Defined.

End Accepted.

(** ** The checks of [silent] and [unresolved] *)

Section SilentUnresolved.

Variable os : OS.
Variable log : string.

(** The checks that run before the one of [silent], when they pass. *)
Lemma before_silent (args : Args) :
  raise_on_invalid_cve args = Ok tt ->
  raise_on_invalid_manifest_options args = Ok tt ->
  nagios args = false ->
  raise_on_invalid_args os args =
    match raise_on_invalid_silent_options args with
    | Raise e => Raise e
    | Ok _ =>
        match raise_on_invalid_unresolved_options args with
        | Raise e => Raise e
        | Ok _ =>
            match raise_on_missing_manifest_file os args with
            | Raise e => Raise e
            | Ok _ => raise_on_missing_oval_file os args
            end
        end
    end.
Proof.
  intros V M N. rewrite raise_on_invalid_args_order, V.
  unfold raise_on_invalid_combinations. rewrite M.
  unfold raise_on_invalid_nagios_options. rewrite N. cbn [negb mbind res_bind].
  destruct (raise_on_invalid_silent_options args) as [[]|]; [|reflexivity].
  now destruct (raise_on_invalid_unresolved_options args) as [[]|].
Qed.

(** [silent] without [cve]: once the format check and the checks of
    [manifest] and [nagios] have passed, resolution raises the
    [ArgumentError] that asks for [cve]. *)
Theorem silent_requires_cve (args : Args) (sysinfo : SysInfo) :
  silent args = true ->
  truthy (cve args) = false ->
  nagios args = false ->
  raise_on_invalid_cve args = Ok tt ->
  raise_on_invalid_manifest_options args = Ok tt ->
  Options.new os log args sysinfo
    = Raised (ArgumentError
                "Cannot specify -s|--silent argument without -c|--cve.") ∅.
Proof.
  intros S C N V M. apply new_raises. rewrite (before_silent args V M N).
  unfold raise_on_invalid_silent_options. now rewrite S, C.
Qed.

(** [silent] with [cve] and with [verbose] or [uct_links]: resolution raises
    an [ArgumentError] that names [-s|--silent] and the other option,
    [verbose] first. *)
Theorem silent_incompatible (args : Args) (sysinfo : SysInfo) :
  silent args = true ->
  truthy (cve args) = true ->
  verbose args || uct_links args = true ->
  nagios args = false ->
  raise_on_invalid_cve args = Ok tt ->
  raise_on_invalid_manifest_options args = Ok tt ->
  exists msg,
    Options.new os log args sysinfo = Raised (ArgumentError msg) ∅
    /\ mentions msg FMT_SILENT_OPTION
    /\ mentions msg (if verbose args then FMT_VERBOSE_OPTION
                     else FMT_UCT_LINKS_OPTION).
Proof.
  intros S C A N V M.
  pose proof (before_silent args V M N) as O.
  unfold raise_on_invalid_silent_options in O. rewrite S, C in O.
  cbn [negb when mbind res_bind] in O.
  destruct (verbose args).
  - destruct (incompatible_message FMT_SILENT_OPTION FMT_VERBOSE_OPTION)
      as (msg & E & M1 & M2).
    cbn [when] in O. rewrite E in O. exists msg.
    split; [now apply new_raises | auto].
  - destruct (uct_links args); [|discriminate A].
    destruct (incompatible_message FMT_SILENT_OPTION FMT_UCT_LINKS_OPTION)
      as (msg & E & M1 & M2).
    cbn [when mbind res_bind] in O. rewrite E in O. exists msg.
    split; [now apply new_raises | auto].
Qed.

(** [unresolved] with [cve]: once the checks before it have passed,
    resolution raises an [ArgumentError] that names both. *)
Theorem unresolved_excludes_cve (args : Args) (sysinfo : SysInfo) :
  unresolved args = true ->
  truthy (cve args) = true ->
  nagios args = false ->
  raise_on_invalid_cve args = Ok tt ->
  raise_on_invalid_manifest_options args = Ok tt ->
  raise_on_invalid_silent_options args = Ok tt ->
  exists msg,
    Options.new os log args sysinfo = Raised (ArgumentError msg) ∅
    /\ mentions msg FMT_UNRESOLVED_OPTION
    /\ mentions msg FMT_CVE_OPTION.
Proof.
  intros U C N V M S.
  pose proof (before_silent args V M N) as O. rewrite S in O.
  unfold raise_on_invalid_unresolved_options in O. rewrite U, C in O.
  destruct (incompatible_message FMT_UNRESOLVED_OPTION FMT_CVE_OPTION)
    as (msg & E & M1 & M2).
  cbn [andb when] in O. rewrite E in O. exists msg.
  split; [now apply new_raises | auto].
Qed.

End SilentUnresolved.

Section SilentUnresolvedWitnesses.

Lemma silent_requires_cve_witness :
  let args := with_silent true no_args in
  silent args = true
  /\ truthy (cve args) = false
  /\ nagios args = false
  /\ raise_on_invalid_cve args = Ok tt
  /\ raise_on_invalid_manifest_options args = Ok tt
  /\ Options.new sample_os sample_log args bionic
       = Raised (ArgumentError
                   "Cannot specify -s|--silent argument without -c|--cve.") ∅.
Proof.
  cbv zeta. do 5 (split; [reflexivity|]).
  apply (silent_requires_cve sample_os sample_log
           (with_silent true no_args) bionic); reflexivity.
Defined.

Lemma silent_incompatible_witness :
  let args :=
    {| cve := Some "CVE-2020-1234"; experimental := false; file := None;
       manifest := None; nagios := false; uct_links := true; oval_file := None;
       priority := Some "high"; silent := true; unresolved := false;
       verbose := false |} in
  silent args = true
  /\ truthy (cve args) = true
  /\ verbose args || uct_links args = true
  /\ nagios args = false
  /\ raise_on_invalid_cve args = Ok tt
  /\ raise_on_invalid_manifest_options args = Ok tt
  /\ exists msg,
       Options.new sample_os sample_log args bionic = Raised (ArgumentError msg) ∅
       /\ mentions msg FMT_SILENT_OPTION
       /\ mentions msg FMT_UCT_LINKS_OPTION.
Proof.
  cbv zeta. do 6 (split; [reflexivity|]).
  apply (silent_incompatible sample_os sample_log
           {| cve := Some "CVE-2020-1234"; experimental := false; file := None;
              manifest := None; nagios := false; uct_links := true;
              oval_file := None; priority := Some "high"; silent := true;
              unresolved := false; verbose := false |} bionic); reflexivity.
Defined.

Lemma unresolved_excludes_cve_witness :
  let args :=
    {| cve := Some "CVE-2020-1234"; experimental := false; file := None;
       manifest := None; nagios := false; uct_links := false; oval_file := None;
       priority := Some "high"; silent := false; unresolved := true;
       verbose := false |} in
  unresolved args = true
  /\ truthy (cve args) = true
  /\ nagios args = false
  /\ raise_on_invalid_cve args = Ok tt
  /\ raise_on_invalid_manifest_options args = Ok tt
  /\ raise_on_invalid_silent_options args = Ok tt
  /\ exists msg,
       Options.new sample_os sample_log args bionic = Raised (ArgumentError msg) ∅
       /\ mentions msg FMT_UNRESOLVED_OPTION
       /\ mentions msg FMT_CVE_OPTION.
Proof.
  cbv zeta. do 6 (split; [reflexivity|]).
  apply (unresolved_excludes_cve sample_os sample_log
           {| cve := Some "CVE-2020-1234"; experimental := false; file := None;
              manifest := None; nagios := false; uct_links := false;
              oval_file := None; priority := Some "high"; silent := false;
              unresolved := true; verbose := false |} bionic); reflexivity.
Defined.

End SilentUnresolvedWitnesses.

(** ** A test that never decides *)

Section NeverReported.

Lemma new_raised_inv
    (os : OS) (log : string) (args : Args) (sysinfo : SysInfo)
    (e : exn) (self : gmap string value) :
  Options.new os log args sysinfo = Raised e self ->
  raise_on_invalid_args os args = Raise e.
Proof.
  intros R. destruct (raise_on_invalid_args os args) as [[]|e'] eqn:V.
  - destruct (new_returns os log args sysinfo V) as [self' R'].
    rewrite R' in R. discriminate.
  - rewrite (new_raises os log args sysinfo e' V) in R. now injection R as ->.
Qed.

Lemma combinations_never_unresolved_nagios (args : Args) :
  raise_on_invalid_combinations args
  <> raise_incompatible_arguments_error FMT_UNRESOLVED_OPTION FMT_NAGIOS_OPTION.
Proof.
  unfold raise_on_invalid_combinations. intros H.
  destruct (raise_on_invalid_manifest_options args) as [[]|e1] eqn:E1.
  2:{ cbn [mbind res_bind] in H. rewrite H in E1.
      unfold raise_on_invalid_manifest_options in E1.
      destruct (truthy (file args) && negb (truthy (manifest args)));
        discriminate E1. }
  destruct (raise_on_invalid_nagios_options args) as [[]|e2] eqn:E2.
  2:{ cbn [mbind res_bind] in H. rewrite H in E2.
      unfold raise_on_invalid_nagios_options in E2.
      destruct (nagios args), (truthy (cve args)), (silent args),
        (unresolved args), (uct_links args); discriminate E2. }
  destruct (raise_on_invalid_silent_options args) as [[]|e3] eqn:E3.
  2:{ cbn [mbind res_bind] in H. rewrite H in E3.
      unfold raise_on_invalid_silent_options in E3.
      destruct (silent args), (truthy (cve args)), (verbose args),
        (uct_links args); discriminate E3. }
  cbn [mbind res_bind] in H.
  unfold raise_on_invalid_unresolved_options in H.
  unfold raise_on_invalid_nagios_options in E2.
  destruct (unresolved args), (truthy (cve args)), (nagios args),
    (silent args), (uct_links args);
    try discriminate H; discriminate E2.
Qed.

(** The second test of [raise_on_invalid_unresolved_options], of
    [unresolved] with [nagios], never gives the exception of resolution: its
    message is never raised, because [raise_on_invalid_nagios_options] runs
    before it and reports the pair itself. *)
Theorem unresolved_nagios_never_reported
    (os : OS) (log : string) (args : Args) (sysinfo : SysInfo)
    (self : gmap string value) :
  raise_incompatible_arguments_error FMT_UNRESOLVED_OPTION FMT_NAGIOS_OPTION
    = Raise (ArgumentError
               "The --unresolved and -n|--nagios options are incompatible and may not be specified together.")
  /\ Options.new os log args sysinfo
     <> Raised (ArgumentError
                  "The --unresolved and -n|--nagios options are incompatible and may not be specified together.")
          self.
Proof.
  split; [reflexivity|]. intros R. apply new_raised_inv in R.
  rewrite raise_on_invalid_args_order in R.
  destruct (raise_on_invalid_cve args) as [[]|e1] eqn:E1.
  2:{ rewrite R in E1. apply raise_on_invalid_cve_raises in E1
        as (c & _ & E & _). discriminate E. }
  destruct (raise_on_invalid_combinations args) as [[]|e2] eqn:E2.
  2:{ rewrite R in E2. now apply combinations_never_unresolved_nagios in E2. }
  unfold raise_on_missing_manifest_file, raise_on_missing_oval_file in R.
  assert (F : forall o, raise_on_missing_file os o
                        <> Raise (ArgumentError
                                    "The --unresolved and -n|--nagios options are incompatible and may not be specified together.")).
  { intros o H. unfold raise_on_missing_file in H.
    destruct o as [p|]; [|discriminate H].
    destruct (String.eqb p ""); [discriminate H|]. cbv zeta in H.
    destruct (isfile os (abspath os p)); cbn [negb] in H; discriminate H. }
  destruct (raise_on_missing_file os (file args)) as [[]|e3] eqn:E3.
  2:{ rewrite R in E3. now apply F in E3. }
  now apply F in R.
Qed.

End NeverReported.

(** ** What a resolved object holds *)

Section Resolved.

Variable os : OS.
Variable log : string.

(** The attributes of the object that resolution returned are those of
    [resolved_attrs]. *)
Lemma returned_attrs (args : Args) (sysinfo : SysInfo) (self : gmap string value) :
  Options.new os log args sysinfo = Returned tt self ->
  raise_on_invalid_args os args = Ok tt
  /\ self !! "manifest_mode" = Some (VBool (truthy (manifest args)))
  /\ self !! "experimental_mode" = Some (VBool (experimental args))
  /\ self !! "nagios_mode" = Some (VBool (nagios args))
  /\ self !! "distrib_codename" = Some (VStr (codename_of args sysinfo))
  /\ self !! "oval_base_url"
       = Some (if truthy (oval_file args) then VNone
               else VStr ("https://people.canonical.com/~ubuntu-security/oval"
                          +:+ (if experimental args then "/alpha" else "")))
  /\ self !! "oval_file"
       = Some (if truthy (oval_file args) then of_optstr (oval_file args)
               else VStr ((if experimental args then "alpha." else "")
                          +:+ (if truthy (manifest args) then "oci." else "")
                          +:+ "com.ubuntu." +:+ codename_of args sysinfo
                          +:+ ".cve.oval.xml"))
  /\ self !! "oval_zip"
       = (if truthy (oval_file args) then None
          else Some (VStr (((if experimental args then "alpha." else "")
                            +:+ (if truthy (manifest args) then "oci." else "")
                            +:+ "com.ubuntu." +:+ codename_of args sysinfo
                            +:+ ".cve.oval.xml") +:+ ".bz2")))
  /\ self !! "manifest_file"
       = Some (match file args with
               | Some f => if String.eqb f "" then VNone else VStr (abspath os f)
               | None => VNone
               end)
  /\ self !! "manifest_url"
       = Some (if truthy (manifest args) && negb (truthy (file args))
               then VStr (MANIFEST_URL_TEMPLATE (codename_of args sysinfo)
                            (codename_of args sysinfo))
               else VNone)
  /\ self !! "verbose_oscap_options"
       = Some (VStr (if verbose args
                     then "--verbose WARNING --verbose-log-file " +:+ log
                     else ""))
  /\ self !! "cve" = Some (of_optstr (cve args))
  /\ self !! "priority" = Some (of_optstr (priority args))
  /\ self !! "unresolved" = Some (VBool (unresolved args))
  /\ self !! "uct_links" = Some (VBool (uct_links args)).
Proof.
  intros R. pose proof (new_returned_validated os log args sysinfo self R) as V.
  split; [exact V|].
  destruct (resolved_attrs os log args sysinfo V) as (self' & R' & A).
  rewrite R' in R. injection R as <-. exact A.
Qed.

(** Without [oval_file] on the command line, the name of the OVAL file is
    [com.ubuntu.<code name>.cve.oval.xml], after [oci.] in manifest mode and
    after [alpha.] in experimental mode, where the code name is the manifest's
    in manifest mode and the system's otherwise; the base URL is the one of
    people.canonical.com, followed by [/alpha] in experimental mode. *)
Theorem derived_oval_file (args : Args) (sysinfo : SysInfo) (self : gmap string value) :
  Options.new os log args sysinfo = Returned tt self ->
  truthy (oval_file args) = false ->
  self !! "distrib_codename" = Some (VStr (codename_of args sysinfo))
  /\ self !! "oval_file"
       = Some (VStr ((if experimental args then "alpha." else "")
                     +:+ (if truthy (manifest args) then "oci." else "")
                     +:+ "com.ubuntu." +:+ codename_of args sysinfo
                     +:+ ".cve.oval.xml"))
  /\ self !! "oval_base_url"
       = Some (VStr ("https://people.canonical.com/~ubuntu-security/oval"
                     +:+ (if experimental args then "/alpha" else ""))).
Proof.
  intros R O.
  destruct (returned_attrs args sysinfo self R)
    as (_ & _ & _ & _ & Adc & Aurl & Aof & _).
  rewrite O in Aurl, Aof. auto.
Qed.

(** [download_oval_file] is true exactly when no [oval_file] was given, and
    [oval_zip] is assigned exactly then: it can be read whenever a download is
    asked for, and only then. *)
Theorem download_iff_derived (args : Args) (sysinfo : SysInfo) (self : gmap string value) :
  Options.new os log args sysinfo = Returned tt self ->
  Options.download_oval_file self = Ok (negb (truthy (oval_file args)))
  /\ (is_Some (self !! "oval_zip")
      <-> Options.download_oval_file self = Ok true).
Proof.
  intros R.
  destruct (returned_attrs args sysinfo self R)
    as (_ & _ & _ & _ & _ & Aurl & _ & Azip & _).
  unfold Options.download_oval_file. rewrite Aurl, Azip.
  destruct (truthy (oval_file args)); cbn [negb].
  - split; [reflexivity|]. split; [intros [w H]; discriminate H | discriminate].
  - split; [reflexivity|]. split; [reflexivity | eauto].
Qed.

(** Of [manifest_file] and [manifest_url], none is set outside manifest mode
    and exactly one is set in manifest mode: the file when [file] was given,
    the URL of the cloud image of the code name otherwise. *)
Theorem manifest_file_or_url (args : Args) (sysinfo : SysInfo) (self : gmap string value) :
  Options.new os log args sysinfo = Returned tt self ->
  exists mfile murl,
    self !! "manifest_file" = Some mfile
    /\ self !! "manifest_url" = Some murl
    /\ (if truthy (manifest args)
        then if truthy (file args)
             then (exists f, file args = Some f /\ mfile = VStr (abspath os f))
                  /\ murl = VNone
             else mfile = VNone
                  /\ murl = VStr (MANIFEST_URL_TEMPLATE (codename_of args sysinfo)
                                    (codename_of args sysinfo))
        else mfile = VNone /\ murl = VNone).
Proof.
  intros R.
  destruct (returned_attrs args sysinfo self R)
    as (V & _ & _ & _ & _ & _ & _ & _ & Amf & Amu & _).
  apply raise_on_invalid_args_ok_inv in V as (_ & C & _ & _).
  apply combinations_ok_iff in C. unfold compatible in C.
  do 2 eexists. split; [exact Amf|]. split; [exact Amu|].
  destruct (file args) as [[|a f]|]; cbn [truthy String.eqb negb] in *.
  - destruct (truthy (manifest args)); auto.
  - destruct (truthy (manifest args)); [|discriminate C].
    cbn [andb negb]. split; [eauto | reflexivity].
  - destruct (truthy (manifest args)); auto.
Qed.

(** Every attribute but [oval_zip] is assigned on every object that
    resolution returns. *)
Theorem attributes_assigned (args : Args) (sysinfo : SysInfo) (self : gmap string value) :
  Options.new os log args sysinfo = Returned tt self ->
  Forall (fun name => is_Some (self !! name)) always_assigned.
Proof.
  intros R.
  destruct (returned_attrs args sysinfo self R)
    as (_ & Amm & Aem & Anm & Adc & Aurl & Aof & _ & Amf & Amu & Avo
        & Acve & Apri & Aunr & Auct).
  unfold always_assigned. repeat constructor; eauto.
Qed.

(** What the checks leave of the options in a resolved object: in nagios
    mode there is no [cve], no [unresolved] and no [uct_links]; with
    [unresolved] there is no [cve]; a [cve] that is there is matched by the
    regular expression; a manifest file is there in manifest mode only. *)
Theorem resolved_invariants (args : Args) (sysinfo : SysInfo) (self : gmap string value) :
  Options.new os log args sysinfo = Returned tt self ->
  (self !! "nagios_mode" = Some (VBool true) ->
   self !! "cve" = Some VNone
   /\ self !! "unresolved" = Some (VBool false)
   /\ self !! "uct_links" = Some (VBool false))
  /\ (self !! "unresolved" = Some (VBool true) -> self !! "cve" = Some VNone)
  /\ (forall c, self !! "cve" = Some (VStr c) ->
                Re.match_anchored cve_regex c = true)
  /\ (forall f, self !! "manifest_file" = Some (VStr f) ->
                self !! "manifest_mode" = Some (VBool true)).
Proof.
  intros R.
  destruct (returned_attrs args sysinfo self R)
    as (V & Amm & _ & Anm & _ & _ & _ & _ & Amf & _ & _ & Acve & _ & Aunr & Auct).
  apply raise_on_invalid_args_ok_inv in V as (Vc & C & _ & _).
  apply combinations_ok_iff in C. unfold compatible in C.
  rewrite Amm, Anm, Amf, Acve, Aunr, Auct.
  unfold raise_on_invalid_cve in Vc.
  assert (Hc : truthy (cve args) = false -> cve args = None).
  { destruct (cve args) as [[|a c]|]; [|discriminate|reflexivity].
    intros _. discriminate Vc. }
  apply andb_true_iff in C as [C Cu]. apply andb_true_iff in C as [C Cs].
  apply andb_true_iff in C as [Cm Cn].
  split; [|split; [|split]].
  - intros [= N]. rewrite N in Cn.
    destruct (truthy (cve args)), (silent args), (unresolved args),
      (uct_links args); try discriminate Cn.
    rewrite Hc by reflexivity. auto.
  - intros [= U]. rewrite U in Cu.
    destruct (truthy (cve args)); [discriminate Cu|].
    now rewrite Hc.
  - intros c [= E]. destruct (cve args) as [c'|]; [|discriminate E].
    injection E as ->. now destruct (Re.match_anchored cve_regex c).
  - intros f [= E]. destruct (file args) as [[|a f']|]; try discriminate E.
    cbn [truthy String.eqb negb implb] in Cm.
    destruct (truthy (manifest args)); [reflexivity | discriminate Cm].
Qed.

End Resolved.

Section ResolvedWitnesses.

Lemma derived_oval_file_witness :
  let args := with_experimental true no_args in
  exists self,
    Options.new sample_os sample_log args bionic = Returned tt self
    /\ truthy (oval_file args) = false
    /\ self !! "distrib_codename" = Some (VStr "bionic")
    /\ self !! "oval_file" = Some (VStr "alpha.com.ubuntu.bionic.cve.oval.xml")
    /\ self !! "oval_base_url"
         = Some (VStr "https://people.canonical.com/~ubuntu-security/oval/alpha").
Proof.
  cbv zeta. eexists. split; [reflexivity|]. split; [reflexivity|].
  apply (derived_oval_file sample_os sample_log
           (with_experimental true no_args) bionic); reflexivity.
Defined.

Lemma download_iff_derived_witness :
  let args := with_oval_file (Some "/tmp/local.xml") no_args in
  exists self,
    Options.new sample_os sample_log args bionic = Returned tt self
    /\ Options.download_oval_file self = Ok false
    /\ (is_Some (self !! "oval_zip")
        <-> Options.download_oval_file self = Ok true).
Proof.
  cbv zeta. eexists. split; [reflexivity|].
  apply (download_iff_derived sample_os sample_log
           (with_oval_file (Some "/tmp/local.xml") no_args) bionic). reflexivity.
Defined.

Lemma manifest_file_or_url_witness :
  let args := with_file (Some "focal.manifest") focal_args in
  exists self,
    Options.new sample_os sample_log args bionic = Returned tt self
    /\ exists mfile murl,
         self !! "manifest_file" = Some mfile
         /\ self !! "manifest_url" = Some murl
         /\ (exists f, file args = Some f /\ mfile = VStr (abspath sample_os f))
         /\ murl = VNone.
Proof.
  cbv zeta. eexists. split; [reflexivity|].
  apply (manifest_file_or_url sample_os sample_log
           (with_file (Some "focal.manifest") focal_args) bionic). reflexivity.
Defined.

Lemma attributes_assigned_witness :
  exists self,
    Options.new sample_os sample_log no_args bionic = Returned tt self
    /\ Forall (fun name => is_Some (self !! name)) always_assigned.
Proof.
  eexists. split; [reflexivity|].
  apply (attributes_assigned sample_os sample_log no_args bionic). reflexivity.
Defined.

Lemma resolved_invariants_witness :
  let args := with_nagios true no_args in
  exists self,
    Options.new sample_os sample_log args bionic = Returned tt self
    /\ self !! "nagios_mode" = Some (VBool true)
    /\ (self !! "nagios_mode" = Some (VBool true) ->
        self !! "cve" = Some VNone
        /\ self !! "unresolved" = Some (VBool false)
        /\ self !! "uct_links" = Some (VBool false))
    /\ (self !! "unresolved" = Some (VBool true) -> self !! "cve" = Some VNone)
    /\ (forall c, self !! "cve" = Some (VStr c) ->
                  Re.match_anchored cve_regex c = true)
    /\ (forall f, self !! "manifest_file" = Some (VStr f) ->
                  self !! "manifest_mode" = Some (VBool true)).
Proof.
  cbv zeta. eexists. split; [reflexivity|]. split; [reflexivity|].
  apply (resolved_invariants sample_os sample_log
           (with_nagios true no_args) bionic). reflexivity.
Defined.

End ResolvedWitnesses.

(** ** Empty strings *)

Section EmptyStrings.

(** An empty [manifest], [file] or [oval_file] is read as an absent one:
    resolution raises the same exception or returns the same object.  (An
    empty [cve] is not: the format check rejects it.) *)
Theorem empty_option_as_absent
    (os : OS) (log : string) (args : Args) (sysinfo : SysInfo) :
  Options.new os log (with_manifest (Some "") args) sysinfo
    = Options.new os log (with_manifest None args) sysinfo
  /\ Options.new os log (with_file (Some "") args) sysinfo
     = Options.new os log (with_file None args) sysinfo
  /\ Options.new os log (with_oval_file (Some "") args) sysinfo
     = Options.new os log (with_oval_file None args) sysinfo
  /\ Options.new os log (with_cve (Some "") args) sysinfo
     <> Options.new os log (with_cve None args) sysinfo.
Proof.
  assert (E : forall a b,
             raise_on_invalid_args os a = raise_on_invalid_args os b ->
             (raise_on_invalid_args os a = Ok tt ->
              exists self,
                Options.new os log a sysinfo = Returned tt self
                /\ Options.new os log b sysinfo = Returned tt self) ->
             Options.new os log a sysinfo = Options.new os log b sysinfo).
  { intros a b V D. destruct (raise_on_invalid_args os a) as [[]|e] eqn:Va.
    - destruct (D eq_refl) as (self & Ra & Rb). now rewrite Ra, Rb.
    - rewrite (new_raises os log a sysinfo e Va).
      symmetry in V. now rewrite (new_raises os log b sysinfo e V). }
  split; [|split; [|split]].
  - apply E; [reflexivity|]. intros V.
    assert (V' : raise_on_invalid_args os (with_manifest None args) = Ok tt)
      by exact V.
    rewrite (new_validated os log _ sysinfo V), (new_validated os log _ sysinfo V').
    clear. split_args args. case_str o; destruct x, v; eexists; split; reflexivity.
  - apply E; [reflexivity|]. intros V.
    assert (V' : raise_on_invalid_args os (with_file None args) = Ok tt)
      by exact V.
    rewrite (new_validated os log _ sysinfo V), (new_validated os log _ sysinfo V').
    clear. split_args args. case_str m; case_str o; destruct x, v;
      eexists; split; reflexivity.
  - apply E; [reflexivity|]. intros V.
    assert (V' : raise_on_invalid_args os (with_oval_file None args) = Ok tt)
      by exact V.
    rewrite (new_validated os log _ sysinfo V), (new_validated os log _ sysinfo V').
    clear. split_args args. case_str m; destruct x, v; eexists; split; reflexivity.
  - rewrite (new_raises os log (with_cve (Some "") args) sysinfo
               (ValueError "Invalid CVE ID ()") eq_refl).
    intros H. symmetry in H. apply new_raised_inv in H.
    rewrite raise_on_invalid_args_order in H. cbn in H.
    destruct (raise_on_invalid_combinations (with_cve None args)) as [[]|e] eqn:C.
    + unfold raise_on_missing_manifest_file, raise_on_missing_oval_file in H.
      destruct (raise_on_missing_file os (file (with_cve None args)))
        as [[]|e3] eqn:F.
      * apply missing_file_raises_argument_error in H as [m H]. discriminate H.
      * injection H as ->.
        apply missing_file_raises_argument_error in F as [m F]. discriminate F.
    + injection H as ->.
      apply combinations_raise_argument_error in C as [m C]. discriminate C.
Qed.

End EmptyStrings.
